(** * Beamline CAF worker: shallow embedding of the execution runtime

    The development follows the C++ sources of the processor:
    - [core.hpp]              : BlockContext, StepRequest, StepStatus, ErrorCode,
                                ResultMetadata, StepResult and its factories;
    - [feature_flags.hpp]     : environment-driven CP2 feature flags;
    - [result_converter.hpp]  : ResultConverter;
    - [retry_policy.hpp]      : RetryPolicy;
    - [timeout_enforcement.hpp], [fs_block.cpp] : FS handlers;
    - [sandbox.cpp]           : Sandbox::validate_sandbox_request;
    - [observability.cpp]     : PII filter of the JSON log writer;
    - [worker_actor.cpp]      : PoolActorState and ExecutorActorState.

    Maps ([std::unordered_map<std::string, std::string>]) are [gmap string string];
    fixed-width integers are [Z] with the wrap-around written out; every read of
    the process environment, of the clock, of the file system or of a future is
    an explicit argument. *)

From Stdlib Require Import ZArith Ascii String List Lia Bool.
From stdpp Require Import base gmap strings pretty.

Local Open Scope Z_scope.

(** ** Character and string helpers (the <cctype> and std::string calls used) *)

Module Str.

(** [::toupper] / [::tolower] in the "C" locale: only the 26 ASCII letters move. *)
Definition toupper (c : ascii) : ascii :=
  let n := nat_of_ascii c in
  if ((97 <=? n) && (n <=? 122))%nat then ascii_of_nat (n - 32) else c.

Definition tolower (c : ascii) : ascii :=
  let n := nat_of_ascii c in
  if ((65 <=? n) && (n <=? 90))%nat then ascii_of_nat (n + 32) else c.

(** [std::transform(s.begin(), s.end(), s.begin(), f)] *)
Fixpoint transform (f : ascii -> ascii) (s : string) : string :=
  match s with
  | EmptyString => EmptyString
  | String c s' => String (f c) (transform f s')
  end.

Definition upper (s : string) : string := transform toupper s.
Definition lower (s : string) : string := transform tolower s.

(** [p] is an initial segment of [s]. *)
Fixpoint starts_with (p s : string) : bool :=
  match p, s with
  | EmptyString, _ => true
  | String a p', String b s' => if Ascii.eqb a b then starts_with p' s' else false
  | String _ _, EmptyString => false
  end.

(** [s.find(pat)]: index of the first occurrence, [None] for [npos]. *)
Fixpoint find (s pat : string) : option nat :=
  if starts_with pat s then Some 0%nat
  else match s with
       | EmptyString => None
       | String _ s' => match find s' pat with
                        | Some i => Some (S i)
                        | None => None
                        end
       end.

(** [s.find(pat) != std::string::npos] *)
Definition contains (s pat : string) : bool :=
  match find s pat with Some _ => true | None => false end.

(** [s.find(pat) == 0] *)
Definition find_is_0 (s pat : string) : bool :=
  match find s pat with Some O => true | _ => false end.

(** [s.empty()] *)
Definition empty (s : string) : bool :=
  match s with EmptyString => true | _ => false end.

(** The one-character string holding a double quote (written with a backslash in C++). *)
Definition dquote : string := String (ascii_of_nat 34) EmptyString.

(** [std::to_string] on a signed integer. *)
Definition to_string (z : Z) : string := pretty z.

End Str.

(** ** caf::expected<T> *)

(** The two error categories of [caf::sec] the sources raise. *)
Inductive sec := invalid_argument | runtime_error.

Inductive expected (A : Type) : Type :=
| Value (a : A)
| Error (code : sec) (msg : string).
Arguments Value {A} a.
Arguments Error {A} code msg.

Definition has_value {A} (e : expected A) : bool :=
  match e with Value _ => true | Error _ _ => false end.

(** ** core.hpp *)

Record BlockContext := {
  ctx_tenant_id : string;
  ctx_trace_id : string;
  ctx_run_id : string;
  ctx_flow_id : string;
  ctx_step_id : string;
  ctx_sandbox : bool;
  ctx_rbac_scopes : list string
}.

(** A default-constructed [BlockContext]. *)
Definition empty_ctx : BlockContext :=
  {| ctx_tenant_id := ""; ctx_trace_id := ""; ctx_run_id := ""; ctx_flow_id := "";
     ctx_step_id := ""; ctx_sandbox := false; ctx_rbac_scopes := [] |}.

Record StepRequest := {
  req_type : string;
  inputs : gmap string string;
  resources : gmap string string;
  timeout_ms : Z;        (* int64_t, default 30000 *)
  retry_count : Z;       (* int32_t, default 3 *)
  guardrails : gmap string string
}.

Inductive StepStatus := ok | error | timeout | cancelled.

Inductive ErrorCode :=
| none
| invalid_input | missing_required_field | invalid_format
| execution_failed | resource_unavailable | permission_denied | quota_exceeded
| network_error | connection_timeout | http_error
| internal_error | system_overload
| cancelled_by_user | cancelled_by_timeout.

Global Instance StepStatus_eq_dec : EqDecision StepStatus.
Proof. solve_decision. Defined.
Global Instance ErrorCode_eq_dec : EqDecision ErrorCode.
Proof. solve_decision. Defined.

(** The numeric value of each enumerator ([static_cast<int>]). *)
Definition error_code_value (c : ErrorCode) : Z :=
  match c with
  | none => 0
  | invalid_input => 1001 | missing_required_field => 1002 | invalid_format => 1003
  | execution_failed => 2001 | resource_unavailable => 2002
  | permission_denied => 2003 | quota_exceeded => 2004
  | network_error => 3001 | connection_timeout => 3002 | http_error => 3003
  | internal_error => 4001 | system_overload => 4002
  | cancelled_by_user => 5001 | cancelled_by_timeout => 5002
  end.

Record ResultMetadata := {
  trace_id : string;
  run_id : string;
  flow_id : string;
  step_id : string;
  tenant_id : string
}.

Definition empty_metadata : ResultMetadata :=
  {| trace_id := ""; run_id := ""; flow_id := ""; step_id := ""; tenant_id := "" |}.

Record StepResult := {
  status : StepStatus;
  error_code : ErrorCode;
  outputs : gmap string string;
  error_message : string;
  metadata : ResultMetadata;
  latency_ms : Z;        (* int64_t *)
  retries_used : Z       (* int32_t *)
}.

(** [StepResult result;] : the member initialisers of the struct. *)
Definition default_StepResult : StepResult :=
  {| status := ok; error_code := none; outputs := ∅; error_message := "";
     metadata := empty_metadata; latency_ms := 0; retries_used := 0 |}.

(** Field assignments on a [StepResult] lvalue. *)
Definition set_status (s : StepStatus) (r : StepResult) : StepResult :=
  {| status := s; error_code := error_code r; outputs := outputs r;
     error_message := error_message r; metadata := metadata r;
     latency_ms := latency_ms r; retries_used := retries_used r |}.
Definition set_error_code (c : ErrorCode) (r : StepResult) : StepResult :=
  {| status := status r; error_code := c; outputs := outputs r;
     error_message := error_message r; metadata := metadata r;
     latency_ms := latency_ms r; retries_used := retries_used r |}.
Definition set_outputs (o : gmap string string) (r : StepResult) : StepResult :=
  {| status := status r; error_code := error_code r; outputs := o;
     error_message := error_message r; metadata := metadata r;
     latency_ms := latency_ms r; retries_used := retries_used r |}.
Definition set_error_message (m : string) (r : StepResult) : StepResult :=
  {| status := status r; error_code := error_code r; outputs := outputs r;
     error_message := m; metadata := metadata r;
     latency_ms := latency_ms r; retries_used := retries_used r |}.
Definition set_metadata (m : ResultMetadata) (r : StepResult) : StepResult :=
  {| status := status r; error_code := error_code r; outputs := outputs r;
     error_message := error_message r; metadata := m;
     latency_ms := latency_ms r; retries_used := retries_used r |}.
Definition set_latency_ms (l : Z) (r : StepResult) : StepResult :=
  {| status := status r; error_code := error_code r; outputs := outputs r;
     error_message := error_message r; metadata := metadata r;
     latency_ms := l; retries_used := retries_used r |}.
Definition set_retries_used (n : Z) (r : StepResult) : StepResult :=
  {| status := status r; error_code := error_code r; outputs := outputs r;
     error_message := error_message r; metadata := metadata r;
     latency_ms := latency_ms r; retries_used := n |}.

(** The four factory methods. *)
Definition success (meta : ResultMetadata) (outs : gmap string string) (lat : Z)
  : StepResult :=
  set_latency_ms lat (set_outputs outs (set_metadata meta
    (set_error_code none (set_status ok default_StepResult)))).

Definition error_result (code : ErrorCode) (message : string)
    (meta : ResultMetadata) (lat : Z) : StepResult :=
  set_latency_ms lat (set_metadata meta (set_error_message message
    (set_error_code code (set_status error default_StepResult)))).

Definition timeout_result (meta : ResultMetadata) (lat : Z) : StepResult :=
  set_latency_ms lat (set_metadata meta
    (set_error_code cancelled_by_timeout (set_status timeout default_StepResult))).


Inductive ResourceClass := cpu | gpu | io.

(** [BlockExecutor::metadata_from_context] *)
Definition metadata_from_context (ctx : BlockContext) : ResultMetadata :=
  {| trace_id := ctx_trace_id ctx;
     run_id := ctx_run_id ctx;
     flow_id := ctx_flow_id ctx;
     step_id := ctx_step_id ctx;
     tenant_id := ctx_tenant_id ctx |}.

(** ** feature_flags.hpp *)

Module FeatureFlags.

(** The process environment: [std::getenv] is a lookup, [nullptr] is [None]. *)
Definition get_env_bool (env : gmap string string) (env_var : string)
    (default_value : bool) : bool :=
  match env !! env_var with
  | None => default_value
  | Some value =>
      let str_value := Str.lower value in
      (String.eqb str_value "true" || String.eqb str_value "1"
       || String.eqb str_value "yes")%bool
  end.

Definition is_advanced_retry_enabled (env : gmap string string) : bool :=
  get_env_bool env "CP2_ADVANCED_RETRY_ENABLED" false.
Definition is_complete_timeout_enabled (env : gmap string string) : bool :=
  get_env_bool env "CP2_COMPLETE_TIMEOUT_ENABLED" false.
Definition is_queue_management_enabled (env : gmap string string) : bool :=
  get_env_bool env "CP2_QUEUE_MANAGEMENT_ENABLED" false.
Definition is_observability_metrics_enabled (env : gmap string string) : bool :=
  get_env_bool env "CP2_OBSERVABILITY_METRICS_ENABLED" false.

End FeatureFlags.

(** ** result_converter.hpp *)

Module ResultConverter.

Definition status_to_string (s : StepStatus) : string :=
  match s with
  | ok => "success"
  | error => "error"
  | timeout => "timeout"
  | cancelled => "cancelled"
  end.

Definition string_to_status (status_str : string) : StepStatus :=
  if String.eqb status_str "success" then ok
  else if String.eqb status_str "error" then error
  else if String.eqb status_str "timeout" then timeout
  else if String.eqb status_str "cancelled" then cancelled
  else error.

Definition error_code_to_string (c : ErrorCode) : string :=
  match c with
  | none => "NONE"
  | invalid_input => "INVALID_INPUT"
  | missing_required_field => "MISSING_REQUIRED_FIELD"
  | invalid_format => "INVALID_FORMAT"
  | execution_failed => "EXECUTION_FAILED"
  | resource_unavailable => "RESOURCE_UNAVAILABLE"
  | permission_denied => "PERMISSION_DENIED"
  | quota_exceeded => "QUOTA_EXCEEDED"
  | network_error => "NETWORK_ERROR"
  | connection_timeout => "CONNECTION_TIMEOUT"
  | http_error => "HTTP_ERROR"
  | internal_error => "INTERNAL_ERROR"
  | system_overload => "SYSTEM_OVERLOAD"
  | cancelled_by_user => "CANCELLED_BY_USER"
  | cancelled_by_timeout => "CANCELLED_BY_TIMEOUT"
  end.

(** [if (cond) exec_result[key] = value;] *)
Definition set_if (cond : bool) (key value : string)
    (m : gmap string string) : gmap string string :=
  if cond then <[key := value]> m else m.

Definition to_exec_result_json (result : StepResult)
    (assignment_id request_id provider_id job_type : string)
  : gmap string string :=
  let m0 : gmap string string := ∅ in
  let m1 := <["version" := "1"]> m0 in
  let m2 := <["assignment_id" := assignment_id]> m1 in
  let m3 := <["request_id" := request_id]> m2 in
  let m4 := <["status" := status_to_string (status result)]> m3 in
  let m5 := <["provider_id" := provider_id]> m4 in
  let m6 := <["job" := "{" +:+ Str.dquote +:+ "type" +:+ Str.dquote +:+ ":"
                        +:+ Str.dquote +:+ job_type +:+ Str.dquote +:+ "}"]> m5 in
  let m7 := <["latency_ms" := Str.to_string (latency_ms result)]> m6 in
  let m8 := <["cost" := "0.0"]> m7 in
  let m9 := set_if (negb (Str.empty (trace_id (metadata result))))
              "trace_id" (trace_id (metadata result)) m8 in
  let m10 := set_if (negb (Str.empty (run_id (metadata result))))
              "run_id" (run_id (metadata result)) m9 in
  let m11 := set_if (negb (Str.empty (tenant_id (metadata result))))
              "tenant_id" (tenant_id (metadata result)) m10 in
  if decide (status result = error) then
    let m12 := <["error_code" := error_code_to_string (error_code result)]> m11 in
    set_if (negb (Str.empty (error_message result)))
      "error_message" (error_message result) m12
  else m11.

Definition validate_result (result : StepResult) : bool :=
  if bool_decide (status result = ok) && negb (bool_decide (error_code result = none))
  then false
  else if bool_decide (status result = error) && bool_decide (error_code result = none)
  then false
  else if latency_ms result <? 0 then false
  else true.

End ResultConverter.


(** ** Fixed-width signed arithmetic *)

(** Two's-complement reduction of a mathematical integer to [w] bits. *)
Definition wrap (w : Z) (z : Z) : Z :=
  (z + 2 ^ (w - 1)) mod 2 ^ w - 2 ^ (w - 1).

Definition wrap32 : Z -> Z := wrap 32.
Definition wrap64 : Z -> Z := wrap 64.

Definition INT32_MIN : Z := - 2 ^ 31.
Definition INT32_MAX : Z := 2 ^ 31 - 1.
Definition INT64_MAX : Z := 2 ^ 63 - 1.

(** ** retry_policy.hpp *)

Module RetryPolicy.

Record Config := {
  base_delay_ms : Z;      (* int64_t *)
  max_delay_ms : Z;       (* int64_t *)
  total_timeout_ms : Z;   (* int64_t *)
  max_retries : Z         (* int32_t *)
}.

(** The member initialisers of [Config]. *)
Definition default_Config : Config :=
  {| base_delay_ms := 100; max_delay_ms := 5000;
     total_timeout_ms := 30000; max_retries := 3 |}.

(** [100 * (attempt + 1)] is [int] arithmetic, widened on return;
    [base_delay_ms * (1LL << attempt)] is [int64_t] arithmetic. *)
Definition calculate_backoff_delay (env : gmap string string) (config_ : Config)
    (attempt : Z) : Z :=
  if negb (FeatureFlags.is_advanced_retry_enabled env) then
    wrap32 (100 * wrap32 (attempt + 1))
  else
    let delay := wrap64 (base_delay_ms config_ * wrap64 (Z.shiftl 1 attempt)) in
    Z.min delay (max_delay_ms config_).

Definition is_retryable (env : gmap string string) (error_code : ErrorCode)
    (http_status_code : Z) : bool :=
  if negb (FeatureFlags.is_advanced_retry_enabled env) then true
  else if (0 <? http_status_code) && (400 <=? http_status_code)
          && (http_status_code <? 500) then false
  else if (0 <? http_status_code) && (500 <=? http_status_code) then true
  else match error_code with
       | network_error | connection_timeout => true
       | invalid_input | missing_required_field | invalid_format => false
       | permission_denied => false
       | execution_failed | resource_unavailable => true
       | internal_error | system_overload => true
       | cancelled_by_user | cancelled_by_timeout => false
       | _ => true
       end.

Definition is_budget_exhausted (env : gmap string string) (config_ : Config)
    (total_elapsed_ms attempt : Z) : bool :=
  if negb (FeatureFlags.is_advanced_retry_enabled env) then false
  else if total_timeout_ms config_ <=? total_elapsed_ms then true
  else
    let next_backoff := calculate_backoff_delay env config_ attempt in
    if total_timeout_ms config_ <=? wrap64 (total_elapsed_ms + next_backoff)
    then true else false.

End RetryPolicy.

(** ** timeout_enforcement.hpp *)

Module TimeoutEnforcement.

Definition get_fs_timeout_ms (env : gmap string string) (operation_type : string) : Z :=
  if negb (FeatureFlags.is_complete_timeout_enabled env) then 0
  else if String.eqb operation_type "read" || String.eqb operation_type "fs.blob_get"
  then 5000
  else if String.eqb operation_type "write" || String.eqb operation_type "fs.blob_put"
  then 10000
  else if String.eqb operation_type "delete" then 3000
  else 5000.

Definition get_http_connection_timeout_ms (env : gmap string string) : Z :=
  if negb (FeatureFlags.is_complete_timeout_enabled env) then 0 else 5000.

Definition get_http_total_timeout_ms (env : gmap string string)
    (request_timeout_ms : Z) : Z :=
  if negb (FeatureFlags.is_complete_timeout_enabled env) then request_timeout_ms
  else wrap64 (get_http_connection_timeout_ms env + request_timeout_ms).

End TimeoutEnforcement.

(** ** C++ exceptions: a computation returns or throws a [std::exception] *)

Inductive exn (A : Type) : Type :=
| Ret (a : A)
| Throw (what : string).
Arguments Ret {A} a.
Arguments Throw {A} what.

(** Sequencing: a throw skips the rest of the block. *)
Global Instance exn_ret : MRet exn := fun A a => Ret a.
Global Instance exn_bind : MBind exn := fun A B k m =>
  match m with
  | Ret a => k a
  | Throw w => Throw w
  end.

(** [if (cond) throw std::runtime_error(what);] *)
Definition throw_if (cond : bool) (what : string) : exn unit :=
  if cond then Throw what else Ret tt.

(** [try { body } catch (const std::exception& e) { handler(e.what()) }] *)
Definition try_catch {A} (body : exn A) (handler : string -> A) : A :=
  match body with
  | Ret a => a
  | Throw w => handler w
  end.

(** ** base_block_executor: the helpers shared by the handlers *)

Fixpoint validate_required_inputs (req : StepRequest)
    (required_inputs : list string) : bool :=
  match required_inputs with
  | [] => true
  | input :: rest =>
      match inputs req !! input with
      | None => false
      | Some _ => validate_required_inputs req rest
      end
  end.

Definition get_input_or_default (req : StepRequest) (key default_value : string)
  : string :=
  match inputs req !! key with
  | Some v => v
  | None => default_value
  end.

(** [req.inputs.at(key)] after the key is known to be present. *)
Definition inputs_at (req : StepRequest) (key : string) : string :=
  default "" (inputs req !! key).

(** ** fs_block.cpp: the fs.blob_put and fs.blob_get handlers *)

(** [std::future_status] after [wait_for]. *)
Inductive future_status := future_ready | future_timeout.

(** Everything one handler invocation reads from outside: the two readings of
    the steady clock, the system clock, the file system, and after how many
    milliseconds the worker thread started by [std::async] is done.
    The future returned by [std::async] waits for its worker when it is
    destroyed, so the handler returns only once the worker is done: a worker
    that never finishes is a handler that never returns, which this record
    does not describe. The counters of [BlockMetrics] written by
    [record_success] and [record_error] are not part of the returned value
    and are left out. *)
Record FsWorld := {
  clock_start : Z;
  clock_end : Z;
  system_clock_now : Z;
  fs_exists : string -> bool;
  fs_exception : option string;  (* what() of an exception raised by a file-system call *)
  fs_open_ok : bool;             (* file.is_open() *)
  fs_file_content : string;
  fs_file_size : Z;              (* file.tellg() *)
  fs_last_write_time : Z;
  io_duration : Z
}.

(** [future.wait_for(std::chrono::milliseconds(timeout_ms))] *)
Definition wait_for (w : FsWorld) (timeout_ms : Z) : future_status :=
  if io_duration w <=? timeout_ms then future_ready else future_timeout.

Definition allowed_prefixes : list string :=
  ["/tmp/beamline/"; "/var/lib/beamline/data/"; "./data/"].

Definition is_path_allowed (path : string) : bool :=
  existsb (fun prefix => Str.find_is_0 path prefix) allowed_prefixes.

(** [duration_cast<milliseconds>(end_time - start_time).count()] *)
Definition elapsed_ms (w : FsWorld) : Z := clock_end w - clock_start w.

Module FsBlockExecutor.

(** Create the parent directories, open and write the file. *)
Definition write_file (w : FsWorld) (path : string) : exn unit :=
  match fs_exception w with
  | Some e => Throw e
  | None =>
      throw_if (negb (fs_open_ok w)) ("Failed to open file for writing: " +:+ path)
  end.

(** The lambda given to [std::async]: it reports instead of throwing. *)
Definition write_task (w : FsWorld) (path : string) : bool * string :=
  match write_file w path with
  | Ret _ => (true, "")
  | Throw e => (false, e)
  end.

Definition execute_impl (env : gmap string string) (w : FsWorld)
    (req : StepRequest) (ctx : BlockContext) : expected StepResult :=
  let metadata := metadata_from_context ctx in
  let latency_ms := elapsed_ms w in
  if negb (validate_required_inputs req ["path"; "content"]) then
    Value (error_result missing_required_field
             "Missing required inputs: path, content" metadata latency_ms)
  else
    let path := inputs_at req "path" in
    let content := inputs_at req "content" in
    let overwrite := String.eqb (get_input_or_default req "overwrite" "") "true" in
    Value (try_catch
      (let fs_timeout_0 := TimeoutEnforcement.get_fs_timeout_ms env "write" in
       let fs_timeout_ms := if fs_timeout_0 =? 0 then timeout_ms req else fs_timeout_0 in
       _ ← throw_if (negb (is_path_allowed path)) ("Path not allowed: " +:+ path);
       _ ← throw_if (negb overwrite && fs_exists w path)
             ("File already exists and overwrite is false: " +:+ path);
       _ ← (if FeatureFlags.is_complete_timeout_enabled env && (0 <? fs_timeout_ms)
            then
              match wait_for w fs_timeout_ms with
              | future_timeout =>
                  Throw ("FS write operation timeout: exceeded "
                         +:+ Str.to_string fs_timeout_ms +:+ "ms")
              | future_ready =>
                  let '(operation_success, operation_error) := write_task w path in
                  throw_if (negb operation_success) operation_error
              end
            else write_file w path);
       let outputs : gmap string string :=
         <["created" := Str.to_string (system_clock_now w)]>
           (<["size" := Str.to_string (Z.of_nat (String.length content))]>
              (<["path" := path]> ∅)) in
       Ret (success metadata outputs latency_ms))
      (fun what =>
         let error_msg := "File write error: " +:+ what in
         let error_code :=
           if Str.contains error_msg "permission" || Str.contains error_msg "Permission"
           then permission_denied else execution_failed in
         error_result error_code error_msg metadata latency_ms)).

End FsBlockExecutor.

Module FsGetBlockExecutor.

(** Check that the file exists, open it and read it whole. *)
Definition read_file (w : FsWorld) (path : string) : exn (string * Z) :=
  match fs_exception w with
  | Some e => Throw e
  | None =>
      _ ← throw_if (negb (fs_exists w path)) ("File not found: " +:+ path);
      _ ← throw_if (negb (fs_open_ok w)) ("Failed to open file for reading: " +:+ path);
      Ret (fs_file_content w, fs_file_size w)
  end.

(** The lambda given to [std::async]; on failure the second component is the message. *)
Definition read_task (w : FsWorld) (path : string) : bool * string * Z :=
  match read_file w path with
  | Ret (c, n) => (true, c, n)
  | Throw e => (false, e, 0)
  end.

Definition execute_impl (env : gmap string string) (w : FsWorld)
    (req : StepRequest) (ctx : BlockContext) : expected StepResult :=
  let metadata := metadata_from_context ctx in
  let latency_ms := elapsed_ms w in
  if negb (validate_required_inputs req ["path"]) then
    Value (error_result missing_required_field
             "Missing required input: path" metadata latency_ms)
  else
    let path := inputs_at req "path" in
    Value (try_catch
      (let fs_timeout_0 := TimeoutEnforcement.get_fs_timeout_ms env "read" in
       let fs_timeout_ms := if fs_timeout_0 =? 0 then timeout_ms req else fs_timeout_0 in
       _ ← throw_if (negb (is_path_allowed path)) ("Path not allowed: " +:+ path);
       '(content, file_size) ←
           (if FeatureFlags.is_complete_timeout_enabled env && (0 <? fs_timeout_ms)
            then
              match wait_for w fs_timeout_ms with
              | future_timeout =>
                  Throw ("FS read operation timeout: exceeded "
                         +:+ Str.to_string fs_timeout_ms +:+ "ms")
              | future_ready =>
                  let '(operation_success, read_content, read_file_size) :=
                    read_task w path in
                  _ ← throw_if (negb operation_success) read_content;
                  Ret (read_content, read_file_size)
              end
            else read_file w path);
       let outputs : gmap string string :=
         <["modified" := Str.to_string (fs_last_write_time w)]>
           (<["size" := Str.to_string file_size]>
              (<["content" := content]>
                 (<["path" := path]> ∅))) in
       Ret (success metadata outputs latency_ms))
      (fun what =>
         let error_msg := "File read error: " +:+ what in
         let error_code :=
           if Str.contains error_msg "not found" || Str.contains error_msg "Not found"
           then resource_unavailable else execution_failed in
         error_result error_code error_msg metadata latency_ms)).

End FsGetBlockExecutor.

(** ** sandbox.cpp *)

Module Sandbox.

Definition forbidden_keywords : list string :=
  ["DROP"; "DELETE"; "TRUNCATE"; "ALTER"; "CREATE"; "GRANT"; "REVOKE"].

Definition validate_sandbox_request (request : StepRequest) : expected unit :=
  if Str.find_is_0 (req_type request) "exec." || Str.find_is_0 (req_type request) "system."
  then Error invalid_argument "Sandbox mode: system execution blocks not allowed"
  else if String.eqb (req_type request) "http.request"
          && match inputs request !! "url" with
             | Some url => Str.find_is_0 url "file://" || Str.find_is_0 url "ftp://"
             | None => false
             end
  then Error invalid_argument "Sandbox mode: file:// and ftp:// URLs not allowed"
  else if String.eqb (req_type request) "sql.query"
          && match inputs request !! "query" with
             | Some query =>
                 let upper_query := Str.upper query in
                 existsb (fun keyword => Str.contains upper_query keyword)
                         forbidden_keywords
             | None => false
             end
  then Error invalid_argument "Sandbox mode: destructive SQL operations not allowed"
  else Value tt.

End Sandbox.

(** ** observability.cpp: redaction of the log context *)

(** A [nlohmann::json] value. Numbers are leaves the filter never inspects;
    an object is its key/value pairs in iteration order. *)
#[local] Unset Elimination Schemes.
Inductive json :=
| JNull
| JBool (b : bool)
| JNumber (z : Z)
| JString (s : string)
| JArray (items : list json)
| JObject (fields : list (string * json)).
#[local] Set Elimination Schemes.

Definition is_object (j : json) : bool :=
  match j with JObject _ => true | _ => false end.
Definition is_array (j : json) : bool :=
  match j with JArray _ => true | _ => false end.

Definition PII_FIELDS : list string :=
  ["password"; "api_key"; "secret"; "token"; "access_token";
   "refresh_token"; "authorization"; "credit_card"; "ssn";
   "email"; "phone"].

Definition is_pii_field (field_name : string) : bool :=
  let lower_field := Str.lower field_name in
  existsb (fun pii_field =>
             String.eqb lower_field pii_field || Str.contains lower_field pii_field)
          PII_FIELDS.

Definition REDACTED : json := JString "[REDACTED]".

Fixpoint filter_pii_recursive (obj : json) : json :=
  match obj with
  | JObject fields =>
      JObject (List.map (fun kv =>
                 if is_pii_field (fst kv) then (fst kv, REDACTED)
                 else if is_object (snd kv) || is_array (snd kv)
                      then (fst kv, filter_pii_recursive (snd kv))
                      else kv) fields)
  | JArray items =>
      JArray (List.map (fun item =>
                if is_object item || is_array item
                then filter_pii_recursive item else item) items)
  | _ => obj
  end.

(** The value stored under field [k] somewhere inside [j] (at any depth). *)
Inductive field_in : string -> json -> json -> Prop :=
| field_here k v fields :
    In (k, v) fields -> field_in k v (JObject fields)
| field_under_object k v k' v' fields :
    In (k', v') fields -> field_in k v v' -> field_in k v (JObject fields)
| field_under_array k v item items :
    In item items -> field_in k v item -> field_in k v (JArray items).

(** ** worker_actor.cpp: the pool stage *)

(** [caf::actor_addr] *)
Definition actor_addr := nat.

(** What a message handler does besides updating its state. Log calls keep
    their level and message; gauge updates keep pool and value. *)
Inductive Effect :=
| log_info (message : string)
| log_warn (message : string)
| set_queue_depth (resource_pool : string) (depth : Z)
| set_active_tasks (resource_pool : string) (count : Z)
| anon_send (dest : actor_addr) (request : StepRequest).

Record PoolActorState := {
  resource_class_ : ResourceClass;
  max_concurrency_ : Z;      (* int *)
  current_load_ : Z;         (* int *)
  pending_requests_ : list (actor_addr * StepRequest);  (* std::queue, front first *)
  max_queue_size_ : Z        (* int *)
}.

Module Pool.

(** The constructor. *)
Definition init (env : gmap string string) (resource_class : ResourceClass)
    (max_concurrency : Z) : PoolActorState :=
  {| resource_class_ := resource_class;
     max_concurrency_ := max_concurrency;
     current_load_ := 0;
     pending_requests_ := [];
     max_queue_size_ :=
       if FeatureFlags.is_queue_management_enabled env then 1000 else 0 |}.

Definition resource_pool_name (rc : ResourceClass) : string :=
  match rc with cpu => "cpu" | gpu => "gpu" | io => "io" end.

Definition get_queue_depth (st : PoolActorState) : Z :=
  Z.of_nat (length (pending_requests_ st)).

Definition update_queue_metrics (env : gmap string string) (st : PoolActorState)
  : list Effect :=
  if negb (FeatureFlags.is_observability_metrics_enabled env) then []
  else [set_queue_depth (resource_pool_name (resource_class_ st)) (get_queue_depth st);
        set_active_tasks (resource_pool_name (resource_class_ st)) (current_load_ st)].

Definition with_load (load : Z) (st : PoolActorState) : PoolActorState :=
  {| resource_class_ := resource_class_ st;
     max_concurrency_ := max_concurrency_ st;
     current_load_ := load;
     pending_requests_ := pending_requests_ st;
     max_queue_size_ := max_queue_size_ st |}.

Definition with_pending (q : list (actor_addr * StepRequest)) (st : PoolActorState)
  : PoolActorState :=
  {| resource_class_ := resource_class_ st;
     max_concurrency_ := max_concurrency_ st;
     current_load_ := current_load_ st;
     pending_requests_ := q;
     max_queue_size_ := max_queue_size_ st |}.

(** The [while] loop of [process_pending], by recursion on the queue it pops. *)
Fixpoint process_pending_from (env : gmap string string) (st : PoolActorState)
    (queue : list (actor_addr * StepRequest)) : PoolActorState * list Effect :=
  match queue with
  | [] => (with_pending [] st, [])
  | (requester, request) :: rest =>
      if current_load_ st <? max_concurrency_ st then
        let st1 := with_load (current_load_ st + 1) (with_pending rest st) in
        let '(st2, effs) := process_pending_from env st1 rest in
        (st2, log_info "Processing queued request"
              :: anon_send requester request
              :: update_queue_metrics env st1 ++ effs)
      else (with_pending queue st, [])
  end.

Definition process_pending (env : gmap string string) (st : PoolActorState)
  : PoolActorState * list Effect :=
  process_pending_from env st (pending_requests_ st).

(** The handler of [(execute_atom, request)]. The statement that would push
    the request on [pending_requests_] is commented out in the source. *)
Definition on_execute (env : gmap string string) (st : PoolActorState)
    (request : StepRequest) : PoolActorState * list Effect :=
  if max_concurrency_ st <=? current_load_ st then
    if FeatureFlags.is_queue_management_enabled env
       && (0 <? max_queue_size_ st)
       && (max_queue_size_ st <=? get_queue_depth st)
    then (st, log_warn "Queue full - rejecting request" :: update_queue_metrics env st)
    else (st, update_queue_metrics env st)
  else
    let st1 := with_load (current_load_ st + 1) st in
    let '(st2, effs) := process_pending env st1 in
    (st2, log_info "Step execution started" :: effs ++ update_queue_metrics env st2).

(** The handler of [(cancel_atom, step_id)]. *)
Definition on_cancel (st : PoolActorState) (step_id : string)
  : PoolActorState * list Effect :=
  (with_pending
     (List.filter (fun e => match inputs (snd e) !! "step_id" with
                            | Some s => negb (String.eqb s step_id)
                            | None => false
                            end)
                  (pending_requests_ st)) st,
   [log_info "Step cancellation requested"]).

End Pool.

(** ** worker_actor.cpp: the executor stage *)

(** [std::stoi]: leading white space, an optional sign, then decimal digits;
    [None] stands for the exception it raises (no digit, or out of [int] range). *)
Fixpoint skip_space (s : string) : string :=
  match s with
  | String c s' => if Ascii.is_space c then skip_space s' else s
  | EmptyString => EmptyString
  end.

Fixpoint read_digits (s : string) (acc : option Z) : option Z :=
  match s with
  | String c s' =>
      match Ascii.is_nat c with
      | Some d => read_digits s' (Some (10 * default 0 acc + Z.of_nat d))
      | None => acc
      end
  | EmptyString => acc
  end.

Definition stoi (s : string) : option Z :=
  let s1 := skip_space s in
  let '(negative, s2) :=
    match s1 with
    | String "-" r => (true, r)
    | String "+" r => (false, r)
    | _ => (false, s1)
    end in
  match read_digits s2 None with
  | None => None
  | Some n =>
      let v := if negative then - n else n in
      if (INT32_MIN <=? v) && (v <=? INT32_MAX) then Some v else None
  end.

(** The handler wrapped by an executor actor: the context stored by [init],
    and what the [k]-th call of [execute_impl] does: how many milliseconds it
    takes and what it returns ([Error]: a raw failure, no StepResult). *)
Record BlockExecutor := {
  context_ : BlockContext;
  execute_impl : nat -> StepRequest -> BlockContext -> Z * expected StepResult
}.

Module Executor.

(** The legacy [execute(req)] of the base class, which uses the stored
    context, timed by [execute_single_attempt]. Returns the result and the
    clock after the call. *)
Definition execute_single_attempt (executor_ : BlockExecutor) (k : nat)
    (req : StepRequest) (now : Z) : expected StepResult * Z :=
  let start_time := now in
  let '(d, result) := execute_impl executor_ k req (context_ executor_) in
  let end_time := now + d in
  let latency_ms := end_time - start_time in
  match result with
  | Value r => (Value (set_latency_ms latency_ms r), end_time)
  | Error c m => (Error c m, end_time)
  end.

(** The budget-exhausted exits: [final_result] keeps its other fields. *)
Definition mark_timeout (attempt : Z) (message : string) (final_result : StepResult)
  : StepResult :=
  set_error_message message
    (set_error_code cancelled_by_timeout
       (set_status timeout (set_retries_used attempt final_result))).

(** [std::this_thread::sleep_for]: a non-positive duration returns at once. *)
Definition sleep_for (d : Z) (now : Z) : Z := now + Z.max 0 d.

Section retry_loop.
Variable env : gmap string string.
Variable executor_ : BlockExecutor.
Variable req : StepRequest.
Variable retry_config : RetryPolicy.Config.
Variable total_start_time : Z.

(** The [for] loop of [execute_with_retry]; [remaining] counts the
    iterations left before [attempt <= max_retries] fails, so [O] is the
    loop exit and the [return final_result] after it. [now] is the steady
    clock in milliseconds; it advances while the handler runs and during
    [sleep_for], the statements in between take no time. *)
Fixpoint retry_loop (remaining : nat) (attempt : Z) (now : Z)
    (final_result : StepResult) (http_status_code : Z) : StepResult :=
  match remaining with
  | O => final_result
  | S remaining' =>
      let total_elapsed_ms := now - total_start_time in
      if RetryPolicy.is_budget_exhausted env retry_config total_elapsed_ms attempt
      then mark_timeout attempt "Retry budget exhausted: total timeout exceeded"
                        final_result
      else
        let '(result, now1) :=
          execute_single_attempt executor_ (Z.to_nat attempt) req now in
        (* the tail of the loop body: backoff, then the next iteration *)
        let continue (final_result : StepResult) (http_status_code : Z) :=
          if attempt <? RetryPolicy.max_retries retry_config then
            let backoff_delay :=
              RetryPolicy.calculate_backoff_delay env retry_config attempt in
            let total_after_backoff_ms := now1 + backoff_delay - total_start_time in
            if RetryPolicy.total_timeout_ms retry_config <=? total_after_backoff_ms
            then mark_timeout attempt
                   "Retry budget exhausted: backoff delay would exceed total timeout"
                   final_result
            else retry_loop remaining' (attempt + 1) (sleep_for backoff_delay now1)
                            final_result http_status_code
          else retry_loop remaining' (attempt + 1) now1 final_result http_status_code
        in
        match result with
        | Value r =>
            let final_result := set_retries_used attempt r in
            let http_status_code :=
              if String.eqb (req_type req) "http.request" then
                match outputs r !! "status_code" with
                | Some s => default 0 (stoi s)
                | None => http_status_code
                end
              else http_status_code in
            if bool_decide (status final_result = ok) then final_result
            else if negb (RetryPolicy.is_retryable env (error_code final_result)
                                                   http_status_code)
            then final_result
            else continue final_result http_status_code
        | Error _ _ =>
            if negb (RetryPolicy.is_retryable env network_error 0) then
              set_retries_used attempt
                (set_error_message "Execution failed and error is non-retryable"
                   (set_error_code execution_failed
                      (set_status error final_result)))
            else continue final_result http_status_code
        end
  end.
End retry_loop.

(** [execute_with_retry], entered when the steady clock reads [now]. The loop
    runs [retry_count + 1] times at most (for [retry_count = INT32_MAX] the
    C++ loop counter would overflow; such a count is outside the model). *)
Definition execute_with_retry (env : gmap string string) (executor_ : BlockExecutor)
    (req : StepRequest) (now : Z) : expected StepResult :=
  let retry_config :=
    {| RetryPolicy.base_delay_ms := 100;
       RetryPolicy.max_delay_ms := 5000;
       RetryPolicy.total_timeout_ms := timeout_ms req;
       RetryPolicy.max_retries := retry_count req |} in
  Value (retry_loop env executor_ req retry_config now
           (Z.to_nat (retry_count req + 1)) 0 now default_StepResult 0).

End Executor.

(** * Specification-side notions *)

(** The StepResult invariants as the data-model section of the specification
    words them. *)
Definition StepResult_invariants (r : StepResult) : Prop :=
  (status r = ok -> error_code r = none)
  /\ (status r = error \/ status r = timeout \/ status r = cancelled ->
      error_code r <> none)
  /\ (status r = timeout -> error_code r = cancelled_by_timeout)
  /\ (status r = cancelled -> error_code r = cancelled_by_user)
  /\ 0 <= latency_ms r.

(** The keys every wire record carries. *)
Definition always_keys : list string :=
  ["version"; "assignment_id"; "request_id"; "status"; "provider_id"; "job";
   "latency_ms"; "cost"].

(** What the filter does to one field of an object. *)
Definition redact_field (kv : string * json) : string * json :=
  (fst kv, if is_pii_field (fst kv) then REDACTED else filter_pii_recursive (snd kv)).

(** A handler that fails rawly at every call. *)
Definition always_raw (executor_ : BlockExecutor) (req : StepRequest) : Prop :=
  forall k : nat, exists d c m,
    execute_impl executor_ k req (context_ executor_) = (d, Error c m).

(** Whole-word occurrence, as the handler section of the specification words
    the sandbox check: the keyword stands in the text with no identifier
    character (letter, digit, underscore) directly before or after it. *)
Definition is_word_char (c : ascii) : bool :=
  let n := nat_of_ascii c in
  ((48 <=? n) && (n <=? 57) || (65 <=? n) && (n <=? 90)
   || (97 <=? n) && (n <=? 122) || (n =? 95))%nat.

Fixpoint drop_chars (n : nat) (s : string) : string :=
  match n, s with
  | S n', String _ s' => drop_chars n' s'
  | _, _ => s
  end.

Definition starts_with_word_char (s : string) : bool :=
  match s with
  | String c _ => is_word_char c
  | EmptyString => false
  end.

(** [prev_is_word] tells whether the character before [s] is an identifier
    character. *)
Fixpoint contains_word_from (prev_is_word : bool) (s kw : string) : bool :=
  (negb prev_is_word && Str.starts_with kw s
   && negb (starts_with_word_char (drop_chars (String.length kw) s)))
  || match s with
     | String c s' => contains_word_from (is_word_char c) s' kw
     | EmptyString => false
     end.

Definition contains_word (s kw : string) : bool := contains_word_from false s kw.

(** A query names a destructive verb as a case-insensitive whole word. *)
Definition names_destructive_verb (query : string) : bool :=
  existsb (fun keyword => contains_word (Str.upper query) keyword)
          Sandbox.forbidden_keywords.

(** ** Environments and requests used in the examples *)

Definition env_baseline : gmap string string := ∅.

Definition env_advanced_retry : gmap string string :=
  {["CP2_ADVANCED_RETRY_ENABLED" := "true"]}.

Definition env_complete_timeout : gmap string string :=
  {["CP2_COMPLETE_TIMEOUT_ENABLED" := "true"]}.

Definition env_queue_management : gmap string string :=
  {["CP2_QUEUE_MANAGEMENT_ENABLED" := "true"]}.

(** A request of the given type and inputs with the default deadline and
    retry count of [StepRequest]. *)
Definition make_request (type : string) (ins : list (string * string)) : StepRequest :=
  {| req_type := type; inputs := list_to_map ins; resources := ∅;
     timeout_ms := 30000; retry_count := 3; guardrails := ∅ |}.

Definition with_budget (t : Z) (n : Z) (req : StepRequest) : StepRequest :=
  {| req_type := req_type req; inputs := inputs req; resources := resources req;
     timeout_ms := t; retry_count := n; guardrails := guardrails req |}.

Definition sql_created_at : StepRequest :=
  make_request "sql.query" [("query", "SELECT created_at FROM events")].

Definition sql_drop : StepRequest :=
  make_request "sql.query" [("query", "drop table users")].

Definition ctx_tenant : BlockContext :=
  {| ctx_tenant_id := "tenant_123"; ctx_trace_id := "trace_456";
     ctx_run_id := "run_789"; ctx_flow_id := "flow_1"; ctx_step_id := "step_1";
     ctx_sandbox := false; ctx_rbac_scopes := [] |}.

(** The log context of the redaction scenario:
    [{api_key: "k-xyz", user_id: "u1", nested: {password: "p"}}]. *)
Definition log_context : json :=
  JObject [("api_key", JString "k-xyz"); ("user_id", JString "u1");
           ("nested", JObject [("password", JString "p")])].

(** A handler whose every invocation fails rawly after 10 ms. *)
Definition crashing_executor : BlockExecutor :=
  {| context_ := ctx_tenant;
     execute_impl := fun _ _ _ => (10, Error runtime_error "handler crashed") |}.

(** A handler that succeeds after 10 ms and fills the metadata from its context. *)
Definition tenant_executor : BlockExecutor :=
  {| context_ := ctx_tenant;
     execute_impl := fun _ _ ctx =>
       (10, Value (success (metadata_from_context ctx) ∅ 10)) |}.

Definition blob_get_request : StepRequest :=
  make_request "fs.blob_get" [("path", "/tmp/beamline/in.bin")].

Definition blob_put_request : StepRequest :=
  make_request "fs.blob_put"
    [("path", "/tmp/beamline/out.bin"); ("content", "payload")].

(** A file system whose I/O takes a minute (a pipe that is fed slowly); the
    handler starts at 1000 ms on the steady clock and returns at 61000 ms. *)
Definition slow_world : FsWorld :=
  {| clock_start := 1000; clock_end := 61000; system_clock_now := 0;
     fs_exists := fun _ => false; fs_exception := None; fs_open_ok := true;
     fs_file_content := ""; fs_file_size := 0; fs_last_write_time := 0;
     io_duration := 60000 |}.

(** A pool of one executor that is busy, with nothing queued. *)
Definition busy_pool : PoolActorState :=
  {| resource_class_ := io; max_concurrency_ := 1; current_load_ := 1;
     pending_requests_ := []; max_queue_size_ := 0 |}.

(** * Further parts of the runtime *)

(** ** core.hpp: the status helpers of StepResult *)

Definition is_success (r : StepResult) : bool := bool_decide (status r = ok).
Definition is_error (r : StepResult) : bool := bool_decide (status r = error).
Definition is_timeout (r : StepResult) : bool := bool_decide (status r = timeout).
Definition is_cancelled (r : StepResult) : bool := bool_decide (status r = cancelled).

(** ** http_block.cpp: the http.request handler *)

Record HttpResponse := {
  resp_status_code : Z;     (* int *)
  resp_body : string;
  resp_headers : string
}.

(** What one invocation reads from outside: the two readings of the steady
    clock, whether [json::parse] accepts the headers text ([Some what]: it
    raises a parse error), and the transfer done by libcurl, given the URL,
    method, body, headers text and the two timeouts the handler sets
    ([Throw]: [curl_easy_init] or [curl_easy_perform] failed). *)
Record HttpWorld := {
  http_clock_start : Z;
  http_clock_end : Z;
  parse_headers : string -> option string;
  curl_perform : string -> string -> string -> string -> option Z -> Z
                 -> exn HttpResponse
}.

Module HttpBlockExecutor.

(** The values given to CURLOPT_CONNECTTIMEOUT_MS (when set) and to
    CURLOPT_TIMEOUT_MS by [perform_http_request]. *)
Definition curl_timeouts (env : gmap string string) (timeout_ms : Z) : option Z * Z :=
  if FeatureFlags.is_complete_timeout_enabled env then
    let connection_timeout := TimeoutEnforcement.get_http_connection_timeout_ms env in
    let request_timeout := wrap64 (timeout_ms - connection_timeout) in
    if 0 <? request_timeout then (Some connection_timeout, request_timeout)
    else (Some connection_timeout, timeout_ms)
  else (None, timeout_ms).

Definition perform_http_request (env : gmap string string) (w : HttpWorld)
    (url method body headers_json : string) (timeout_ms : Z) : exn HttpResponse :=
  let '(connect, total) := curl_timeouts env timeout_ms in
  curl_perform w url method body headers_json connect total.

Definition execute_impl (env : gmap string string) (w : HttpWorld)
    (req : StepRequest) (ctx : BlockContext) : expected StepResult :=
  let metadata := metadata_from_context ctx in
  let latency_ms := http_clock_end w - http_clock_start w in
  if negb (validate_required_inputs req ["url"; "method"]) then
    Value (error_result missing_required_field
             "Missing required inputs: url, method" metadata latency_ms)
  else
    let url := inputs_at req "url" in
    let method := inputs_at req "method" in
    let body := get_input_or_default req "body" "" in
    let headers_json := get_input_or_default req "headers" "{}" in
    match parse_headers w headers_json with
    | Some what =>
        Value (error_result invalid_format ("Invalid headers JSON: " +:+ what)
                 metadata latency_ms)
    | None =>
        Value (try_catch
          (http_result ← perform_http_request env w url method body headers_json
                            (timeout_ms req);
           let outputs : gmap string string :=
             <["headers" := resp_headers http_result]>
               (<["body" := resp_body http_result]>
                  (<["status_code" := Str.to_string (resp_status_code http_result)]> ∅)) in
           if (200 <=? resp_status_code http_result)
              && (resp_status_code http_result <? 300)
           then Ret (success metadata outputs latency_ms)
           else Ret (error_result http_error
                       ("HTTP request failed with status: "
                        +:+ Str.to_string (resp_status_code http_result))
                       metadata latency_ms))
          (fun what =>
             let error_msg := "HTTP request exception: " +:+ what in
             let error_code :=
               if Str.contains error_msg "timeout" || Str.contains error_msg "TIMEOUT"
               then connection_timeout else network_error in
             error_result error_code error_msg metadata latency_ms))
    end.

End HttpBlockExecutor.

(** ** human_block.cpp: the human.approval handler *)

(** [std::stoll]: as [stoi], with the range of [long long]. *)
Definition stoll (s : string) : option Z :=
  let s1 := skip_space s in
  let '(negative, s2) :=
    match s1 with
    | String "-" r => (true, r)
    | String "+" r => (false, r)
    | _ => (false, s1)
    end in
  match read_digits s2 None with
  | None => None
  | Some n =>
      let v := if negative then - n else n in
      if (- 2 ^ 63 <=? v) && (v <=? INT64_MAX) then Some v else None
  end.

(** The clock readings of one invocation, the three readings of the system
    clock (for the approval id, [requested_at] and [approved_at]) and the
    value of the static counter of [generate_approval_id] before the call. *)
Record HumanWorld := {
  human_clock_start : Z;
  human_clock_end : Z;
  system_now_id : Z;
  system_now_requested : Z;
  system_now_approved : Z;
  approval_counter : Z
}.

Module HumanBlockExecutor.

Definition generate_approval_id (w : HumanWorld) : string :=
  "approval_" +:+ Str.to_string (wrap32 (approval_counter w + 1)) +:+ "_"
  +:+ Str.to_string (system_now_id w).

(** [Throw]: an exception leaves [execute_impl]; the conversion of
    [timeout_seconds] stands before the [try] block. *)
Definition execute_impl (w : HumanWorld) (req : StepRequest) (ctx : BlockContext)
  : exn (expected StepResult) :=
  let metadata := metadata_from_context ctx in
  let latency_ms := human_clock_end w - human_clock_start w in
  if negb (validate_required_inputs req ["approval_type"; "description"]) then
    Ret (Value (error_result missing_required_field
                  "Missing required inputs: approval_type, description"
                  metadata latency_ms))
  else
    match stoll (get_input_or_default req "timeout_seconds" "3600") with
    | None => Throw "stoll"
    | Some timeout_seconds =>
        let approval_id := generate_approval_id w in
        if ctx_sandbox ctx then
          let outputs : gmap string string :=
            <["reason" := "Sandbox approval"]>
              (<["approved_at" := Str.to_string (system_now_approved w)]>
                 (<["approved_by" := "sandbox_user"]>
                    (<["decision" := "approved"]>
                       (<["approval_id" := approval_id]> ∅)))) in
          Ret (Value (success metadata outputs latency_ms))
        else if wrap64 (timeout_seconds * 1000) <? latency_ms then
          Ret (Value (timeout_result metadata latency_ms))
        else
          let outputs : gmap string string :=
            <["timeout_seconds" := Str.to_string timeout_seconds]>
              (<["message" := "Approval request submitted. Waiting for human approval."]>
                 (<["status" := "pending"]>
                    (<["approval_id" := approval_id]> ∅))) in
          Ret (Value (success metadata outputs latency_ms))
    end.

End HumanBlockExecutor.

(** ** scheduler.cpp and worker_actor.cpp: choosing the pool *)

Module Scheduler.


End Scheduler.

Module Worker.


End Worker.

(** ** worker_actor.cpp: the metrics recorded after a step *)

(** The calls made on the [Observability] object; the observed duration, a
    [double], is not kept. *)
Inductive MetricCall :=
| record_step_execution
    (step_type execution_status tenant_id run_id flow_id step_id : string)
| record_step_execution_duration
    (step_type execution_status tenant_id run_id flow_id step_id : string)
| record_step_error
    (step_type error_code tenant_id run_id flow_id step_id : string).

Module ExecutorMetrics.

Definition record_step_metrics (env : gmap string string) (req : StepRequest)
    (result : StepResult) : list MetricCall :=
  if negb (FeatureFlags.is_observability_metrics_enabled env) then []
  else
    let tenant_id := tenant_id (metadata result) in
    let run_id := run_id (metadata result) in
    let flow_id := flow_id (metadata result) in
    let step_id := step_id (metadata result) in
    let execution_status :=
      match status result with
      | ok => "success"
      | error => "error"
      | timeout => "timeout"
      | cancelled => "cancelled"
      end in
    [record_step_execution (req_type req) execution_status
       tenant_id run_id flow_id step_id;
     record_step_execution_duration (req_type req) execution_status
       tenant_id run_id flow_id step_id]
    ++ (if bool_decide (status result = error)
        then [record_step_error (req_type req)
                (Str.to_string (error_code_value (error_code result)))
                tenant_id run_id flow_id step_id]
        else []).

(** The handler of [(execute_atom, request)] of the executor actor. *)
Definition on_execute (env : gmap string string) (executor_ : BlockExecutor)
    (request : StepRequest) (now : Z) : list MetricCall :=
  match Executor.execute_with_retry env executor_ request now with
  | Value result => record_step_metrics env request result
  | Error _ _ => []
  end.

End ExecutorMetrics.

(** ** observability.cpp: the log record and the endpoints *)

Module Observability.

(** [context_obj] before filtering: [worker_id], then every entry of the
    context, a later assignment to the same key replacing the earlier one.
    The pairs are listed in the order of [map_to_list], not in the key order
    of the C++ object. *)
Definition context_object (worker_id_ : string) (context : gmap string string) : json :=
  JObject (map_to_list (JString <$> (context ∪ {["worker_id" := worker_id_]}))).

(** [json::empty()] *)
Definition json_empty (j : json) : bool :=
  match j with
  | JNull => true
  | JArray [] => true
  | JObject [] => true
  | _ => false
  end.

(** The object [format_json_log] serialises with [dump()], given the text
    returned by [get_iso8601_timestamp]. *)
Definition format_json_log (worker_id_ timestamp level message
    tenant_id run_id flow_id step_id trace_id : string)
    (context : gmap string string) : gmap string json :=
  let e0 : gmap string json := ∅ in
  let e1 := <["timestamp" := JString timestamp]> e0 in
  let e2 := <["level" := JString level]> e1 in
  let e3 := <["component" := JString "worker"]> e2 in
  let e4 := <["message" := JString message]> e3 in
  let e5 := if Str.empty tenant_id then e4 else <["tenant_id" := JString tenant_id]> e4 in
  let e6 := if Str.empty run_id then e5 else <["run_id" := JString run_id]> e5 in
  let e7 := if Str.empty flow_id then e6 else <["flow_id" := JString flow_id]> e6 in
  let e8 := if Str.empty step_id then e7 else <["step_id" := JString step_id]> e7 in
  let e9 := if Str.empty trace_id then e8 else <["trace_id" := JString trace_id]> e8 in
  let context_obj := filter_pii_recursive (context_object worker_id_ context) in
  if json_empty context_obj then e9 else <["context" := context_obj]> e9.

Definition CRLF : string :=
  String (ascii_of_nat 13) (String (ascii_of_nat 10) EmptyString).

Definition LF : string := String (ascii_of_nat 10) EmptyString.

Definition not_found_reply : string :=
  "HTTP/1.1 404 Not Found" +:+ CRLF +:+ "Content-Type: text/plain" +:+ CRLF
  +:+ "Content-Length: 13" +:+ CRLF +:+ CRLF +:+ "404 Not Found".

(** What [health_server_loop] sends back for the request text it received,
    given the body built by [get_health_response]. *)
Definition health_reply (request response_body : string) : string :=
  if Str.contains request "GET /_health" || Str.contains request "GET /_health HTTP"
  then "HTTP/1.1 200 OK" +:+ CRLF +:+ "Content-Type: application/json" +:+ CRLF
       +:+ "Content-Length: "
       +:+ Str.to_string (Z.of_nat (String.length response_body)) +:+ CRLF
       +:+ CRLF +:+ response_body
  else not_found_reply.

Definition get_metrics_response (env : gmap string string) : string :=
  if negb (FeatureFlags.is_observability_metrics_enabled env) then ""
  else "# Worker Metrics (CP2 Wave 1)" +:+ LF +:+ "# Registry not initialized" +:+ LF.

(** What [metrics_server_loop] sends back. *)
Definition metrics_reply (env : gmap string string) (request : string) : string :=
  if Str.contains request "GET /metrics" || Str.contains request "GET /metrics HTTP"
  then let response_body := get_metrics_response env in
       "HTTP/1.1 200 OK" +:+ CRLF +:+ "Content-Type: text/plain; version=0.0.4" +:+ CRLF
       +:+ "Content-Length: "
       +:+ Str.to_string (Z.of_nat (String.length response_body)) +:+ CRLF
       +:+ CRLF +:+ response_body
  else not_found_reply.

End Observability.

(** ** main.cpp: the ports of the two endpoints *)

(** [s.substr(0, n)] *)
Fixpoint take_chars (n : nat) (s : string) : string :=
  match n, s with
  | S n', String c s' => String c (take_chars n' s')
  | _, _ => EmptyString
  end.

Module Main.

(** The address and the ports [caf_main] starts the health and the metrics
    endpoint on, from the [prometheus_endpoint] option; [Throw]: [std::stoi]
    raised, which [caf_main] reports as a fatal error. *)
Definition endpoints (prometheus_endpoint : string) : exn (string * Z * Z) :=
  match Str.find prometheus_endpoint ":" with
  | None => Ret ("0.0.0.0", 9091, 9092)
  | Some colon_pos =>
      let health_address := take_chars colon_pos prometheus_endpoint in
      let port_str := drop_chars (S colon_pos) prometheus_endpoint in
      match stoi port_str with
      | None => Throw "stoi"
      | Some base_port =>
          Ret (health_address,
               wrap32 (base_port + 1) mod 65536,
               wrap32 (base_port + 2) mod 65536)
      end
  end.

End Main.

(** ** Further examples *)


(** A pool of two executors, one of them busy, with three requests queued. *)
Definition queued_pool : PoolActorState :=
  {| resource_class_ := io; max_concurrency_ := 2; current_load_ := 1;
     pending_requests_ :=
       [(1%nat, make_request "fs.blob_get" [("step_id", "s1")]);
        (2%nat, make_request "fs.blob_get" []);
        (3%nat, make_request "fs.blob_get" [("step_id", "s2")])];
     max_queue_size_ := 1000 |}.

(** A server that answers 404 to the first call and 200 to the second. *)
Definition flaky_http_executor : BlockExecutor :=
  {| context_ := ctx_tenant;
     execute_impl := fun k _ ctx =>
       match k with
       | O => (20, Value (error_result http_error
                            "HTTP request failed with status: 404"
                            (metadata_from_context ctx) 20))
       | _ => (20, Value (success (metadata_from_context ctx)
                            (<["status_code" := "200"]> ∅) 20))
       end |}.

Definition http_get_request : StepRequest :=
  make_request "http.request" [("url", "https://example.test/ok"); ("method", "GET")].

(** The configuration [execute_with_retry] builds for a request. *)
Definition retry_config_of (req : StepRequest) : RetryPolicy.Config :=
  {| RetryPolicy.base_delay_ms := 100;
     RetryPolicy.max_delay_ms := 5000;
     RetryPolicy.total_timeout_ms := timeout_ms req;
     RetryPolicy.max_retries := retry_count req |}.

(** An executor actor around the HTTP handler: its [k]-th call meets the
    world [worlds k] and lasts from the first to the second clock reading. *)
Definition http_executor (env : gmap string string) (worlds : nat -> HttpWorld)
    (ctx : BlockContext) : BlockExecutor :=
  {| context_ := ctx;
     execute_impl := fun k req c =>
       (http_clock_end (worlds k) - http_clock_start (worlds k),
        HttpBlockExecutor.execute_impl env (worlds k) req c) |}.

(** A server that answers [code] after 20 ms. *)
Definition answering (code : Z) : HttpWorld :=
  {| http_clock_start := 0; http_clock_end := 20;
     parse_headers := fun _ => None;
     curl_perform := fun _ _ _ _ _ _ =>
       Ret {| resp_status_code := code; resp_body := "hello"; resp_headers := "" |} |}.

(** 404 on the first call, 200 afterwards. *)
Definition not_found_then_ok (k : nat) : HttpWorld :=
  match k with O => answering 404 | _ => answering 200 end.

(** The requests a list of effects hands to other actors, in order. *)
Fixpoint sent_requests (effs : list Effect) : list (actor_addr * StepRequest) :=
  match effs with
  | [] => []
  | anon_send dest request :: rest => (dest, request) :: sent_requests rest
  | _ :: rest => sent_requests rest
  end.

(** [r] with other outputs, retry count, flow id and step id. *)
Definition with_untransmitted (outs : gmap string string) (n : Z)
    (flow step : string) (r : StepResult) : StepResult :=
  set_outputs outs
    (set_retries_used n
       (set_metadata {| trace_id := trace_id (metadata r);
                        run_id := run_id (metadata r);
                        flow_id := flow;
                        step_id := step;
                        tenant_id := tenant_id (metadata r) |} r)).

Definition approval_request : StepRequest :=
  make_request "human.approval"
    [("approval_type", "deploy"); ("description", "ship it");
     ("timeout_seconds", "0")].

Definition approval_world : HumanWorld :=
  {| human_clock_start := 0; human_clock_end := 100; system_now_id := 42;
     system_now_requested := 42; system_now_approved := 43; approval_counter := 0 |}.

(** * Properties *)

(** ** String search *)

Lemma starts_with_spec p s :
  Str.starts_with p s = true <-> exists post, s = p +:+ post.
Proof.
  revert s; induction p as [|a p IH]; intros s; simpl.
  - split; [intros _; by exists s | done].
  - destruct s as [|b s].
    + split; [done | intros [post H]; discriminate].
    + destruct (Ascii.eqb_spec a b) as [->|Hne].
      * rewrite IH. split; intros [post H]; exists post; simpl in *;
          [by rewrite H | by injection H].
      * split; [done | intros [post H]; simpl in H; injection H as H _; by subst].
Qed.

(** [find] succeeds exactly when the pattern occurs somewhere in the text. *)
Lemma contains_spec s pat :
  Str.contains s pat = true <-> exists pre post, s = pre +:+ pat +:+ post.
Proof.
  unfold Str.contains.
  induction s as [|c s IH]; simpl.
  - destruct (Str.starts_with pat "") eqn:E.
    + split; [intros _ | done].
      apply starts_with_spec in E as [post E]. by exists "", post.
    + split; [done | intros [pre [post H]]].
      destruct pre; simpl in H; [|discriminate].
      assert (Str.starts_with pat "" = true) by (apply starts_with_spec; eauto).
      congruence.
  - destruct (Str.starts_with pat (String c s)) eqn:E.
    + split; [intros _ | done].
      apply starts_with_spec in E as [post E]. by exists "", post.
    + destruct (Str.find s pat) eqn:F.
      * split; [intros _ | done].
        destruct IH as [IH _]. destruct (IH eq_refl) as [pre [post ->]].
        by exists (String c pre), post.
      * split; [done | intros [pre [post H]]].
        destruct pre as [|c' pre]; simpl in H.
        -- assert (Str.starts_with pat (String c s) = true)
             by (apply starts_with_spec; eauto).
           congruence.
        -- injection H as _ H. destruct IH as [_ IH].
           assert (false = true) by (apply IH; eauto). done.
Qed.

(** ** ResultConverter *)

(** C10: the status-to-wire-string mapping round-trips, and every string that
    is not one of the four wire names is read back as [error]. *)
Theorem status_string_roundtrip :
  (forall s : StepStatus,
      ResultConverter.string_to_status (ResultConverter.status_to_string s) = s)
  /\ (forall str : string,
        str <> "success" -> str <> "error" -> str <> "timeout" -> str <> "cancelled" ->
        ResultConverter.string_to_status str = error).
Proof.
  split.
  - intros []; reflexivity.
  - intros str H1 H2 H3 H4. unfold ResultConverter.string_to_status.
    repeat match goal with
           | |- context [String.eqb ?a ?b] =>
               destruct (String.eqb_spec a b); [congruence|]
           end.
    reflexivity.
Qed.

Lemma status_string_roundtrip_witness :
  ResultConverter.string_to_status (ResultConverter.status_to_string timeout) = timeout
  /\ ResultConverter.string_to_status "unknown" = error.
Proof.
  split.
  - apply (proj1 status_string_roundtrip).
  - apply (proj2 status_string_roundtrip); discriminate.
Defined.

(** C4 (as amended): [validate_result] accepts a result exactly when a
    success carries no error code, an error carries one, and the latency is
    not negative; it does not look at the error code of a timeout or of a
    cancellation. *)
Theorem validate_result_checks :
  forall r : StepResult,
    ResultConverter.validate_result r = true <->
    (status r = ok -> error_code r = none)
    /\ (status r = error -> error_code r <> none)
    /\ 0 <= latency_ms r.
Proof.
  intros r. unfold ResultConverter.validate_result.
  destruct (status r), (error_code r); simpl;
    destruct (Z.ltb_spec (latency_ms r) 0); split;
    solve [ discriminate
          | intros _; repeat split; (congruence || lia)
          | intros (Ha & Hb & Hc); first [reflexivity | lia | by specialize (Ha eq_refl)
                                          | by specialize (Hb eq_refl) ] ].
Qed.

(** C4 (as stated) fails: a timeout without an error code passes
    [validate_result] although it breaks the invariants. *)
Lemma validate_result_misses_timeout :
  ~ (forall r : StepResult,
       ResultConverter.validate_result r = true <-> StepResult_invariants r).
Proof.
  intros H.
  pose (r := set_error_code none (timeout_result empty_metadata 0)).
  assert (Hv : ResultConverter.validate_result r = true) by reflexivity.
  apply H in Hv. destruct Hv as (_ & _ & Ht & _).
  specialize (Ht eq_refl). discriminate.
Qed.

Lemma empty_false (s : string) : Str.empty s = false <-> s <> "".
Proof. destruct s; simpl; split; congruence. Qed.

Lemma empty_true (s : string) : Str.empty s = true <-> s = "".
Proof. destruct s; simpl; split; congruence. Qed.

Lemma set_if_is_Some (c : bool) (key v k : string) (m : gmap string string) :
  is_Some (ResultConverter.set_if c key v m !! k) <->
  (c = true /\ key = k) \/ is_Some (m !! k).
Proof.
  unfold ResultConverter.set_if. destruct c.
  - rewrite lookup_insert_is_Some'. intuition.
  - intuition congruence.
Qed.

Lemma set_if_other (c : bool) (key v k : string) (m : gmap string string) :
  key <> k -> ResultConverter.set_if c key v m !! k = m !! k.
Proof.
  intros Hne. unfold ResultConverter.set_if. destruct c; [|done].
  by rewrite lookup_insert_ne.
Qed.

Lemma lookup_empty_is_Some (k : string) :
  is_Some ((∅ : gmap string string) !! k) <-> False.
Proof. rewrite lookup_empty. split; [intros [? ?]; discriminate | done]. Qed.

(** C8: the wire record holds the eight fixed keys, each correlation key
    exactly when its metadata field is not empty, [error_code] exactly for an
    error and [error_message] exactly for an error with a message, and
    nothing else; [version] is "1" and [cost] is "0.0". *)
Theorem to_exec_result_json_keys :
  forall (r : StepResult) (assignment_id request_id provider_id job_type : string),
    let m := ResultConverter.to_exec_result_json r assignment_id request_id
               provider_id job_type in
    (forall k : string,
        is_Some (m !! k) <->
        In k always_keys
        \/ (k = "trace_id" /\ trace_id (metadata r) <> "")
        \/ (k = "run_id" /\ run_id (metadata r) <> "")
        \/ (k = "tenant_id" /\ tenant_id (metadata r) <> "")
        \/ (k = "error_code" /\ status r = error)
        \/ (k = "error_message" /\ status r = error /\ error_message r <> ""))
    /\ m !! "version" = Some "1"
    /\ m !! "cost" = Some "0.0".
Proof.
  intros r a q p j m. subst m. split; [| split].
  - intros k. unfold ResultConverter.to_exec_result_json, always_keys. cbv zeta.
    destruct (decide (status r = error)) as [E|E];
      repeat (rewrite set_if_is_Some || rewrite lookup_insert_is_Some');
      rewrite lookup_empty_is_Some, ?negb_true_iff, ?empty_false;
      simpl; intuition congruence.
  - unfold ResultConverter.to_exec_result_json. cbv zeta.
    destruct (decide (status r = error));
      repeat first [ rewrite set_if_other; [| discriminate]
                   | rewrite lookup_insert_ne; [| discriminate] ];
      by rewrite lookup_insert_eq.
  - unfold ResultConverter.to_exec_result_json. cbv zeta.
    destruct (decide (status r = error));
      repeat first [ rewrite set_if_other; [| discriminate]
                   | rewrite lookup_insert_ne; [| discriminate] ];
      by rewrite lookup_insert_eq.
Qed.

(** ** RetryPolicy *)

Lemma wrap64_small z : - 2 ^ 63 <= z < 2 ^ 63 -> wrap64 z = z.
Proof.
  intros H. unfold wrap64, wrap.
  replace (64 - 1) with 63 by lia.
  rewrite Z.mod_small; lia.
Qed.

(** Where the product does not leave the 64-bit range the backoff is the
    capped exponential of the documentation. *)
Lemma backoff_exact_in_range env cfg attempt :
  FeatureFlags.is_advanced_retry_enabled env = true ->
  0 <= attempt < 63 ->
  0 <= RetryPolicy.base_delay_ms cfg ->
  RetryPolicy.base_delay_ms cfg * 2 ^ attempt < 2 ^ 63 ->
  RetryPolicy.calculate_backoff_delay env cfg attempt
  = Z.min (RetryPolicy.base_delay_ms cfg * 2 ^ attempt) (RetryPolicy.max_delay_ms cfg).
Proof.
  intros Hflag Ha Hb Hlt. unfold RetryPolicy.calculate_backoff_delay.
  rewrite Hflag. simpl negb. cbv iota.
  rewrite Z.shiftl_1_l.
  assert (0 < 2 ^ attempt) by (apply Z.pow_pos_nonneg; lia).
  assert (2 ^ attempt < 2 ^ 63) by (apply Z.pow_lt_mono_r; lia).
  rewrite (wrap64_small (2 ^ attempt)) by lia.
  rewrite wrap64_small by nia.
  reflexivity.
Qed.

(** In that range the backoff does not decrease and never exceeds the cap. *)
Lemma backoff_monotone_in_range env cfg a a' :
  FeatureFlags.is_advanced_retry_enabled env = true ->
  0 <= a <= a' -> a' < 63 ->
  0 <= RetryPolicy.base_delay_ms cfg ->
  RetryPolicy.base_delay_ms cfg * 2 ^ a' < 2 ^ 63 ->
  RetryPolicy.calculate_backoff_delay env cfg a
  <= RetryPolicy.calculate_backoff_delay env cfg a'
  <= RetryPolicy.max_delay_ms cfg.
Proof.
  intros Hflag Ha Ha' Hb Hlt.
  assert (2 ^ a <= 2 ^ a') by (apply Z.pow_le_mono_r; lia).
  assert (0 < 2 ^ a) by (apply Z.pow_pos_nonneg; lia).
  rewrite !backoff_exact_in_range by (try done; try lia; nia).
  split; [| apply Z.le_min_r].
  apply Z.min_le_compat_r. nia.
Qed.

(** C5: with the advanced-retry flag on and the default configuration, the
    64-bit product [base_delay_ms * (1LL << attempt)] overflows at attempt 57:
    the delay is negative, below the delay of attempt 0 and not the capped
    exponential [min(100 * 2^57, 5000) = 5000]. *)
Theorem backoff_overflow_at_57 :
  FeatureFlags.is_advanced_retry_enabled env_advanced_retry = true
  /\ RetryPolicy.calculate_backoff_delay env_advanced_retry RetryPolicy.default_Config 0
     = 100
  /\ RetryPolicy.calculate_backoff_delay env_advanced_retry RetryPolicy.default_Config 57
     = -4035225266123964416
  /\ Z.min (RetryPolicy.base_delay_ms RetryPolicy.default_Config * 2 ^ 57)
           (RetryPolicy.max_delay_ms RetryPolicy.default_Config) = 5000.
Proof. repeat split; vm_compute; reflexivity. Qed.

(** ** Sandbox *)

Lemma sandbox_sql_rejected (req : StepRequest) :
  req_type req = "sql.query" ->
  has_value (Sandbox.validate_sandbox_request req) = false <->
  exists query,
    inputs req !! "query" = Some query
    /\ existsb (fun keyword => Str.contains (Str.upper query) keyword)
               Sandbox.forbidden_keywords = true.
Proof.
  intros Ht. unfold Sandbox.validate_sandbox_request. rewrite Ht.
  change (Str.find_is_0 "sql.query" "exec." || Str.find_is_0 "sql.query" "system.")
    with false.
  change (String.eqb "sql.query" "http.request") with false.
  change (String.eqb "sql.query" "sql.query") with true.
  cbv iota. rewrite andb_false_l, andb_true_l.
  destruct (inputs req !! "query") as [query|].
  - match goal with
    | |- context [existsb ?f ?l] => destruct (existsb f l) eqn:E
    end; unfold has_value; cbv iota.
    + split; [intros _; by exists query | done].
    + split; [done | intros [q [Hq Hex]]]. injection Hq as Hq. subst q.
      rewrite E in Hex. discriminate.
  - unfold has_value. split; [done | intros [q [Hq _]]; discriminate].
Qed.

(** C6 (as amended): in sandbox mode a sql.query request is rejected exactly
    when its query, with ASCII letters upper-cased, contains one of the seven
    keywords as a substring; no word boundary is looked at. *)
Theorem sandbox_sql_rejects_substring :
  forall req : StepRequest,
    req_type req = "sql.query" ->
    (has_value (Sandbox.validate_sandbox_request req) = false <->
     exists query keyword pre post,
       inputs req !! "query" = Some query
       /\ In keyword Sandbox.forbidden_keywords
       /\ Str.upper query = pre +:+ keyword +:+ post).
Proof.
  intros req Ht. rewrite (sandbox_sql_rejected req Ht). split.
  - intros [query [Hq Hex]]. apply existsb_exists in Hex as [kw [Hin Hc]].
    apply contains_spec in Hc as [pre [post Hc]]. by exists query, kw, pre, post.
  - intros (query & kw & pre & post & Hq & Hin & Hc). exists query. split; [done|].
    apply existsb_exists. exists kw. split; [done|].
    apply contains_spec. eauto.
Qed.

Lemma sandbox_sql_rejects_substring_witness :
  has_value (Sandbox.validate_sandbox_request sql_drop) = false.
Proof.
  apply (proj2 (sandbox_sql_rejects_substring sql_drop eq_refl)).
  exists "drop table users", "DROP", "", " TABLE USERS".
  split; [vm_compute; reflexivity | split; [simpl; tauto | reflexivity]].
Defined.

(** C6 (as stated) fails: a query that only selects the column [created_at]
    names no destructive verb as a whole word, and is rejected all the same. *)
Lemma sandbox_rejects_created_at :
  ~ (forall req : StepRequest,
       req_type req = "sql.query" ->
       (has_value (Sandbox.validate_sandbox_request req) = false <->
        exists query, inputs req !! "query" = Some query
                      /\ names_destructive_verb query = true)).
Proof.
  intros H. specialize (H sql_created_at eq_refl).
  assert (Hrej : has_value (Sandbox.validate_sandbox_request sql_created_at) = false)
    by (vm_compute; reflexivity).
  apply H in Hrej as [query [Hq Hw]].
  assert (query = "SELECT created_at FROM events")
    by (vm_compute in Hq; congruence).
  subst query. vm_compute in Hw. discriminate.
Qed.

(** ** PII filter *)

(** Structural induction on JSON trees, through the lists of an array and of
    an object. *)
Fixpoint json_induction (P : json -> Prop)
    (Hnull : P JNull) (Hbool : forall b, P (JBool b))
    (Hnum : forall z, P (JNumber z)) (Hstr : forall s, P (JString s))
    (Harr : forall items, Forall P items -> P (JArray items))
    (Hobj : forall fields, Forall (fun kv => P (snd kv)) fields -> P (JObject fields))
    (j : json) {struct j} : P j :=
  match j with
  | JNull => Hnull
  | JBool b => Hbool b
  | JNumber z => Hnum z
  | JString s => Hstr s
  | JArray items =>
      Harr items
        ((fix go (l : list json) : Forall P l :=
            match l with
            | [] => Forall_nil_2 P
            | x :: l' =>
                Forall_cons_2 P x l'
                  (json_induction P Hnull Hbool Hnum Hstr Harr Hobj x) (go l')
            end) items)
  | JObject fields =>
      Hobj fields
        ((fix go (l : list (string * json)) : Forall (fun kv => P (snd kv)) l :=
            match l with
            | [] => Forall_nil_2 _
            | kv :: l' =>
                Forall_cons_2 (fun kv => P (snd kv)) kv l'
                  (json_induction P Hnull Hbool Hnum Hstr Harr Hobj (snd kv)) (go l')
            end) fields)
  end.

Lemma filter_leaf (j : json) :
  is_object j || is_array j = false -> filter_pii_recursive j = j.
Proof. destruct j; simpl; congruence. Qed.

Lemma filter_guard (j : json) :
  (if is_object j || is_array j then filter_pii_recursive j else j)
  = filter_pii_recursive j.
Proof.
  destruct (is_object j || is_array j) eqn:E; [done|]. by rewrite filter_leaf.
Qed.

Lemma filter_object (fields : list (string * json)) :
  filter_pii_recursive (JObject fields) = JObject (List.map redact_field fields).
Proof.
  simpl. f_equal. apply map_ext. intros [k v]. unfold redact_field. simpl.
  destruct (is_pii_field k); [done|].
  destruct (is_object v || is_array v) eqn:E; [done|]. by rewrite filter_leaf.
Qed.

Lemma filter_array (items : list json) :
  filter_pii_recursive (JArray items) = JArray (List.map filter_pii_recursive items).
Proof. simpl. f_equal. apply map_ext. intros j. apply filter_guard. Qed.

Lemma filter_idempotent (j : json) :
  filter_pii_recursive (filter_pii_recursive j) = filter_pii_recursive j.
Proof.
  induction j using json_induction; try reflexivity.
  - rewrite !filter_array. f_equal. rewrite List.map_map.
    apply map_ext_Forall. done.
  - rewrite !filter_object. f_equal. rewrite List.map_map.
    apply map_ext_Forall. eapply Forall_impl; [eassumption|].
    intros [k v] IH. unfold redact_field. simpl in *.
    destruct (is_pii_field k); [done|]. by rewrite IH.
Qed.

Lemma filter_no_pii_left (j : json) :
  forall k v, field_in k v (filter_pii_recursive j) ->
              is_pii_field k = true -> v = REDACTED.
Proof.
  induction j as [| | | |items IH|fields IH] using json_induction;
    intros k v Hin Hpii; try (by inversion Hin).
  - rewrite filter_array in Hin. inversion Hin as [| |? ? item ? Hitem Hf]; subst.
    apply in_map_iff in Hitem as [j [<- Hj]].
    rewrite Forall_forall in IH. eapply IH; eauto. by apply list_elem_of_In.
  - rewrite filter_object in Hin. rewrite Forall_forall in IH.
    inversion Hin as [? ? ? Hkv | ? ? k' v' ? Hkv Hf | ]; subst.
    + apply in_map_iff in Hkv as [[k0 v0] [Heq Hkv]].
      unfold redact_field in Heq. simpl in Heq. injection Heq as Hk Hv. subst k0.
      by rewrite Hpii in Hv.
    + apply in_map_iff in Hkv as [[k0 v0] [Heq Hkv]].
      unfold redact_field in Heq. simpl in Heq. injection Heq as Hk Hv. subst k' v'.
      destruct (is_pii_field k0).
      * inversion Hf.
      * eapply (IH (k0, v0)); eauto. by apply list_elem_of_In.
Qed.

Lemma append_empty_r (s : string) : s +:+ "" = s.
Proof.
  induction s as [|c s IH]; [done|].
  change (String c s +:+ "") with (String c (s +:+ "")). by rewrite IH.
Qed.

Lemma is_pii_field_spec (name : string) :
  is_pii_field name = true <->
  exists p pre post, In p PII_FIELDS /\ Str.lower name = pre +:+ p +:+ post.
Proof.
  unfold is_pii_field. rewrite existsb_exists. split.
  - intros [p [Hin Hp]]. apply orb_true_iff in Hp as [Heq | Hc].
    + apply String.eqb_eq in Heq. exists p, "", "". split; [done|].
      rewrite Heq. change ("" +:+ p +:+ "") with (p +:+ "").
      by rewrite append_empty_r.
    + apply contains_spec in Hc as [pre [post Hc]]. by exists p, pre, post.
  - intros (p & pre & post & Hin & Heq). exists p. split; [done|].
    apply orb_true_iff. right. apply contains_spec. eauto.
Qed.

(** C9: a field name is sensitive exactly when its lower-cased form contains
    one of the eleven substrings; the filter replaces the value of every
    sensitive field of an object by "[REDACTED]" and recurses into the other
    values and into the items of arrays; no sensitive field at any depth of
    the output keeps another value; and filtering twice is filtering once. *)
Theorem filter_pii_redacts_and_is_idempotent :
  (forall name : string,
      is_pii_field name = true <->
      exists p pre post, In p PII_FIELDS /\ Str.lower name = pre +:+ p +:+ post)
  /\ (forall fields : list (string * json),
        filter_pii_recursive (JObject fields)
        = JObject (List.map (fun kv =>
                     (fst kv, if is_pii_field (fst kv) then JString "[REDACTED]"
                              else filter_pii_recursive (snd kv))) fields))
  /\ (forall items : list json,
        filter_pii_recursive (JArray items)
        = JArray (List.map filter_pii_recursive items))
  /\ (forall (j : json) (k : string) (v : json),
        field_in k v (filter_pii_recursive j) ->
        is_pii_field k = true -> v = JString "[REDACTED]")
  /\ (forall j : json,
        filter_pii_recursive (filter_pii_recursive j) = filter_pii_recursive j).
Proof.
  split; [exact is_pii_field_spec|].
  split; [exact filter_object|].
  split; [exact filter_array|].
  split; [exact filter_no_pii_left | exact filter_idempotent].
Qed.

Lemma filter_pii_redacts_and_is_idempotent_witness :
  field_in "password" (JString "[REDACTED]") (filter_pii_recursive log_context)
  /\ is_pii_field "password" = true
  /\ JString "[REDACTED]" = JString "[REDACTED]"
  /\ filter_pii_recursive (filter_pii_recursive log_context)
     = JObject [("api_key", JString "[REDACTED]"); ("user_id", JString "u1");
                ("nested", JObject [("password", JString "[REDACTED]")])].
Proof.
  destruct filter_pii_redacts_and_is_idempotent as (_ & _ & _ & Hleft & Hidem).
  assert (Hin : field_in "password" (JString "[REDACTED]")
                  (filter_pii_recursive log_context)).
  { vm_compute. eapply field_under_object.
    - right. right. left. reflexivity.
    - apply field_here. left. reflexivity. }
  split; [exact Hin|]. split; [reflexivity|].
  split; [exact (Hleft log_context "password" _ Hin eq_refl)|].
  rewrite Hidem. reflexivity.
Defined.

(** ** Executor stage *)

(** The classification call of the raw-failure branch never answers "not
    retryable", so the conversion to [execution_failed] behind it is never
    reached. *)
Lemma network_error_is_retryable (env : gmap string string) :
  RetryPolicy.is_retryable env network_error 0 = true.
Proof.
  unfold RetryPolicy.is_retryable.
  by destruct (FeatureFlags.is_advanced_retry_enabled env).
Qed.

Lemma retry_loop_raw env executor_ req cfg start :
  always_raw executor_ req ->
  forall remaining attempt now http,
    let r := Executor.retry_loop env executor_ req cfg start remaining attempt now
               default_StepResult http in
    r = default_StepResult
    \/ exists a msg, r = Executor.mark_timeout a msg default_StepResult.
Proof.
  intros Hraw remaining.
  induction remaining as [|remaining IH]; intros attempt now http; simpl.
  - by left.
  - destruct (RetryPolicy.is_budget_exhausted env cfg (now - start) attempt).
    { right. eauto. }
    unfold Executor.execute_single_attempt.
    destruct (Hraw (Z.to_nat attempt)) as (d & c & m & ->).
    rewrite network_error_is_retryable. simpl negb. cbv iota.
    destruct (attempt <? RetryPolicy.max_retries cfg); [|apply IH].
    destruct (RetryPolicy.total_timeout_ms cfg <=? _); [right; eauto | apply IH].
Qed.

(** C1: when every invocation of the handler fails rawly, [execute_with_retry]
    never reports [execution_failed]: it returns either the untouched
    default-constructed result, whose status is [ok], or a budget timeout. *)
Theorem raw_failure_is_not_converted :
  forall (env : gmap string string) (executor_ : BlockExecutor)
         (req : StepRequest) (now : Z),
    always_raw executor_ req ->
    exists r : StepResult,
      Executor.execute_with_retry env executor_ req now = Value r
      /\ ((status r = ok /\ error_code r = none)
          \/ (status r = timeout /\ error_code r = cancelled_by_timeout)).
Proof.
  intros env executor_ req now Hraw. unfold Executor.execute_with_retry.
  eexists. split; [reflexivity|].
  match goal with
  | |- context [Executor.retry_loop ?e ?x ?q ?c ?s ?n ?a ?t _ ?h] =>
      destruct (retry_loop_raw e x q c s Hraw n a t h) as [-> | (a' & msg & ->)]
  end; [left | right]; done.
Qed.

(** At the failing input (baseline flags, no retry, a handler that crashes)
    the step is reported as a success. *)
Lemma raw_failure_is_not_converted_witness :
  always_raw crashing_executor (with_budget 30000 0 blob_get_request)
  /\ Executor.execute_with_retry env_baseline crashing_executor
       (with_budget 30000 0 blob_get_request) 0 = Value default_StepResult
  /\ exists r : StepResult,
      Executor.execute_with_retry env_baseline crashing_executor
        (with_budget 30000 0 blob_get_request) 0 = Value r
      /\ ((status r = ok /\ error_code r = none)
          \/ (status r = timeout /\ error_code r = cancelled_by_timeout)).
Proof.
  assert (H : always_raw crashing_executor (with_budget 30000 0 blob_get_request)).
  { intros k. exists 10, runtime_error, "handler crashed". reflexivity. }
  split; [exact H|]. split; [vm_compute; reflexivity|].
  exact (raw_failure_is_not_converted env_baseline crashing_executor
           (with_budget 30000 0 blob_get_request) 0 H).
Defined.

(** C7: with advanced retry on and a deadline of 50 ms the budget test fails
    before the first attempt; the timeout result the executor builds has
    empty metadata, not the correlation IDs of the handler's context. *)
Theorem executor_timeout_has_no_metadata :
  exists r : StepResult,
    Executor.execute_with_retry env_advanced_retry tenant_executor
      (with_budget 50 3 blob_get_request) 0 = Value r
    /\ status r = timeout
    /\ error_code r = cancelled_by_timeout
    /\ metadata r = empty_metadata
    /\ metadata r <> metadata_from_context (context_ tenant_executor).
Proof.
  eexists. split; [vm_compute; reflexivity|].
  repeat split; discriminate.
Qed.

(** ** FS handlers *)

Lemma validate_required_inputs_present (req : StepRequest) (keys : list string) :
  Forall (fun k => is_Some (inputs req !! k)) keys ->
  validate_required_inputs req keys = true.
Proof.
  induction 1 as [|k keys [v Hk] _ IH]; simpl; [done|]. by rewrite Hk.
Qed.

Lemma inputs_at_Some (req : StepRequest) (k v : string) :
  inputs req !! k = Some v -> inputs_at req k = v.
Proof. intros H. unfold inputs_at. by rewrite H. Qed.

Lemma fs_timeout_write env :
  FeatureFlags.is_complete_timeout_enabled env = true ->
  TimeoutEnforcement.get_fs_timeout_ms env "write" = 10000.
Proof. intros H. unfold TimeoutEnforcement.get_fs_timeout_ms. by rewrite H. Qed.

Lemma fs_timeout_read env :
  FeatureFlags.is_complete_timeout_enabled env = true ->
  TimeoutEnforcement.get_fs_timeout_ms env "read" = 5000.
Proof. intros H. unfold TimeoutEnforcement.get_fs_timeout_ms. by rewrite H. Qed.

(** C2: with the complete-timeout flag on, a write that is still running
    after 10000 ms, and a read still running after 5000 ms, make the handler
    return an error result with code [execution_failed], not a timeout
    result. *)
Theorem fs_timeout_is_reported_as_error :
  (forall (env : gmap string string) (w : FsWorld) (req : StepRequest)
          (ctx : BlockContext) (path content : string),
      FeatureFlags.is_complete_timeout_enabled env = true ->
      inputs req !! "path" = Some path ->
      inputs req !! "content" = Some content ->
      is_path_allowed path = true ->
      fs_exists w path = false ->
      wait_for w 10000 = future_timeout ->
      FsBlockExecutor.execute_impl env w req ctx
      = Value (error_result execution_failed
                 "File write error: FS write operation timeout: exceeded 10000ms"
                 (metadata_from_context ctx) (elapsed_ms w)))
  /\ (forall (env : gmap string string) (w : FsWorld) (req : StepRequest)
             (ctx : BlockContext) (path : string),
        FeatureFlags.is_complete_timeout_enabled env = true ->
        inputs req !! "path" = Some path ->
        is_path_allowed path = true ->
        wait_for w 5000 = future_timeout ->
        FsGetBlockExecutor.execute_impl env w req ctx
        = Value (error_result execution_failed
                   "File read error: FS read operation timeout: exceeded 5000ms"
                   (metadata_from_context ctx) (elapsed_ms w))).
Proof.
  split.
  - intros env w req ctx path content Hflag Hpath Hcontent Hallowed Hnew Hwait.
    unfold FsBlockExecutor.execute_impl.
    rewrite validate_required_inputs_present
      by (repeat constructor; rewrite ?Hpath, ?Hcontent; eauto).
    rewrite (inputs_at_Some _ _ _ Hpath), (fs_timeout_write env Hflag).
    rewrite Hflag, Hallowed, Hnew, andb_false_r. simpl. rewrite Hwait.
    reflexivity.
  - intros env w req ctx path Hflag Hpath Hallowed Hwait.
    unfold FsGetBlockExecutor.execute_impl.
    rewrite validate_required_inputs_present
      by (repeat constructor; rewrite ?Hpath; eauto).
    rewrite (inputs_at_Some _ _ _ Hpath), (fs_timeout_read env Hflag).
    rewrite Hflag, Hallowed. simpl. rewrite Hwait.
    reflexivity.
Qed.

Lemma fs_timeout_is_reported_as_error_witness :
  (status <$> Some (error_result execution_failed "" empty_metadata 0)) = Some error
  /\ FsBlockExecutor.execute_impl env_complete_timeout slow_world
       blob_put_request ctx_tenant
     = Value (error_result execution_failed
                "File write error: FS write operation timeout: exceeded 10000ms"
                (metadata_from_context ctx_tenant) 60000)
  /\ FsGetBlockExecutor.execute_impl env_complete_timeout slow_world
       blob_get_request ctx_tenant
     = Value (error_result execution_failed
                "File read error: FS read operation timeout: exceeded 5000ms"
                (metadata_from_context ctx_tenant) 60000).
Proof.
  split; [reflexivity|]. split.
  - apply (proj1 fs_timeout_is_reported_as_error env_complete_timeout slow_world
             blob_put_request ctx_tenant "/tmp/beamline/out.bin" "payload");
      vm_compute; reflexivity.
  - apply (proj2 fs_timeout_is_reported_as_error env_complete_timeout slow_world
             blob_get_request ctx_tenant "/tmp/beamline/in.bin");
      vm_compute; reflexivity.
Defined.

(** Every result the two FS handlers build carries the correlation IDs of the
    context they were called with. *)
Lemma fs_handlers_populate_metadata env w req ctx r :
  FsBlockExecutor.execute_impl env w req ctx = Value r
  \/ FsGetBlockExecutor.execute_impl env w req ctx = Value r ->
  metadata r = metadata_from_context ctx.
Proof.
  intros [H | H].
  - unfold FsBlockExecutor.execute_impl in H.
    destruct (negb _); injection H as <-; [done|].
    unfold try_catch, FsBlockExecutor.write_task, FsBlockExecutor.write_file, throw_if.
    repeat (case_match; simpl in *; simplify_eq); done.
  - unfold FsGetBlockExecutor.execute_impl in H.
    destruct (negb _); injection H as <-; [done|].
    unfold try_catch, FsGetBlockExecutor.read_task, FsGetBlockExecutor.read_file,
      throw_if.
    repeat (case_match; simpl in *; simplify_eq); done.
Qed.

(** ** Pool stage *)

Lemma process_pending_from_sends env st queue :
  forall dest r,
    In (anon_send dest r) (snd (Pool.process_pending_from env st queue)) ->
    In (dest, r) queue.
Proof.
  revert st. induction queue as [|[requester request] rest IH]; intros st dest r; simpl.
  - done.
  - destruct (current_load_ st <? max_concurrency_ st); simpl; [|done].
    destruct (Pool.process_pending_from env _ rest) as [st2 effs] eqn:E. simpl.
    intros [H | [H | H]]; [discriminate | injection H as -> ->; by left |].
    apply in_app_or in H as [H | H].
    + unfold Pool.update_queue_metrics in H.
      destruct (negb _); simpl in H; intuition discriminate.
    + right. eapply IH. rewrite E. exact H.
Qed.

(** Whatever its branch, the execute handler forwards only requests that were
    already queued; the submitted request itself is handed to nobody. *)
Lemma on_execute_sends_only_queued env st req dest r :
  In (anon_send dest r) (snd (Pool.on_execute env st req)) ->
  In (dest, r) (pending_requests_ st).
Proof.
  unfold Pool.on_execute, Pool.update_queue_metrics.
  destruct (max_concurrency_ st <=? current_load_ st).
  - repeat (case_match; simpl); intuition discriminate.
  - unfold Pool.process_pending.
    destruct (Pool.process_pending_from env _ _) as [st2 effs] eqn:E. simpl.
    intros [H | H]; [discriminate|].
    apply in_app_or in H as [H | H].
    + change (pending_requests_ st)
        with (pending_requests_ (Pool.with_load (current_load_ st + 1) st)).
      eapply process_pending_from_sends. rewrite E. exact H.
    + destruct (negb _); simpl in H; intuition discriminate.
Qed.

(** C3: a request submitted to a pool that is at its concurrency limit
    changes neither the pending queue nor the load and is sent to no
    executor: it is not appended to the queue, with or without the
    queue-management flag. *)
Theorem saturated_pool_drops_request :
  forall (env : gmap string string) (st : PoolActorState) (req : StepRequest),
    max_concurrency_ st <= current_load_ st ->
    pending_requests_ (fst (Pool.on_execute env st req)) = pending_requests_ st
    /\ current_load_ (fst (Pool.on_execute env st req)) = current_load_ st
    /\ (forall dest r, ~ In (anon_send dest r) (snd (Pool.on_execute env st req))).
Proof.
  intros env st req Hfull. unfold Pool.on_execute.
  destruct (Z.leb_spec (max_concurrency_ st) (current_load_ st)); [|lia].
  unfold Pool.update_queue_metrics.
  repeat (case_match; simpl); repeat split; intros; intuition discriminate.
Qed.

Lemma saturated_pool_drops_request_witness :
  max_concurrency_ busy_pool <= current_load_ busy_pool
  /\ Pool.on_execute env_baseline busy_pool blob_put_request = (busy_pool, [])
  /\ pending_requests_ (fst (Pool.on_execute env_baseline busy_pool blob_put_request))
     = []
  /\ snd (Pool.process_pending env_baseline
            (fst (Pool.on_execute env_baseline busy_pool blob_put_request))) = [].
Proof.
  assert (H : max_concurrency_ busy_pool <= current_load_ busy_pool)
    by (vm_compute; discriminate).
  split; [exact H|]. split; [vm_compute; reflexivity|].
  split.
  - exact (proj1 (saturated_pool_drops_request env_baseline busy_pool
                    blob_put_request H)).
  - vm_compute; reflexivity.
Defined.

(** * Further properties *)

(** ** StepResult factories *)



(** ** Feature flags *)

(** X2: a flag reads true exactly when its variable is unset and the default
    is true, or is set to a text that is "true", "1" or "yes" once ASCII
    letters are lower-cased; a variable set to anything else reads false
    whatever the default. *)
Theorem get_env_bool_true_iff :
  forall (env : gmap string string) (env_var : string) (default_value : bool),
    FeatureFlags.get_env_bool env env_var default_value = true <->
    (env !! env_var = None /\ default_value = true)
    \/ (exists value, env !! env_var = Some value
                      /\ (Str.lower value = "true" \/ Str.lower value = "1"
                          \/ Str.lower value = "yes")).
Proof.
  intros env env_var d. unfold FeatureFlags.get_env_bool.
  destruct (env !! env_var) as [value|].
  - rewrite !orb_true_iff, !String.eqb_eq. split.
    + intros H. right. exists value. tauto.
    + intros [[H _] | (v & Hv & H)]; [discriminate|]. injection Hv as <-. tauto.
  - split; [intros ->; by left | intros [[_ H] | (v & Hv & _)]; done].
Qed.

(** ** Retry policy *)

Lemma wrap32_small z : - 2 ^ 31 <= z < 2 ^ 31 -> wrap32 z = z.
Proof.
  intros H. unfold wrap32, wrap.
  replace (32 - 1) with 31 by lia.
  rewrite Z.mod_small; lia.
Qed.

(** X3: with the advanced-retry flag off every error is retryable, the budget
    is never exhausted, and the backoff is [100 * (attempt + 1)] ms whatever
    the configuration, for every attempt whose delay fits in an [int]. *)
Theorem baseline_retry_policy :
  forall (env : gmap string string) (cfg : RetryPolicy.Config),
    FeatureFlags.is_advanced_retry_enabled env = false ->
    (forall c s, RetryPolicy.is_retryable env c s = true)
    /\ (forall elapsed attempt,
          RetryPolicy.is_budget_exhausted env cfg elapsed attempt = false)
    /\ (forall attempt,
          0 <= attempt <= 21474835 ->
          RetryPolicy.calculate_backoff_delay env cfg attempt = 100 * (attempt + 1)).
Proof.
  intros env cfg Hoff. repeat split.
  - intros c s. unfold RetryPolicy.is_retryable. by rewrite Hoff.
  - intros e a. unfold RetryPolicy.is_budget_exhausted. by rewrite Hoff.
  - intros a Ha. unfold RetryPolicy.calculate_backoff_delay. rewrite Hoff. simpl.
    rewrite (wrap32_small (a + 1)) by lia. apply wrap32_small. lia.
Qed.

Lemma baseline_retry_policy_witness :
  RetryPolicy.is_retryable env_baseline invalid_input 404 = true
  /\ RetryPolicy.calculate_backoff_delay env_baseline RetryPolicy.default_Config 2 = 300.
Proof.
  destruct (baseline_retry_policy env_baseline RetryPolicy.default_Config eq_refl)
    as (Hr & _ & Hb).
  split; [apply Hr | apply (Hb 2); lia].
Defined.

(** X4: with the advanced-retry flag on, an HTTP status of 500 or more makes
    every error retryable and a status from 400 to 499 makes every error
    terminal; for any other status the error code decides, and the terminal
    codes are the three validation codes, [permission_denied] and the two
    cancellation codes. *)
Theorem is_retryable_classification :
  forall (env : gmap string string) (c : ErrorCode) (http_status : Z),
    FeatureFlags.is_advanced_retry_enabled env = true ->
    (RetryPolicy.is_retryable env c http_status = true <->
     500 <= http_status
     \/ (~ (400 <= http_status < 500)
         /\ ~ In c [invalid_input; missing_required_field; invalid_format;
                    permission_denied; cancelled_by_user; cancelled_by_timeout])).
Proof.
  intros env c s Hon. unfold RetryPolicy.is_retryable. rewrite Hon. simpl negb.
  cbv iota.
  destruct ((0 <? s) && (400 <=? s) && (s <? 500)) eqn:E1.
  - apply andb_prop in E1 as [E1 E3]. apply andb_prop in E1 as [E1 E2].
    apply Z.ltb_lt in E1, E3. apply Z.leb_le in E2.
    split; [done | intros [? | [? _]]; lia].
  - destruct ((0 <? s) && (500 <=? s)) eqn:E2.
    + apply andb_prop in E2 as [_ E2]. apply Z.leb_le in E2.
      split; [intros _; left; lia | done].
    + rewrite !andb_false_iff, Z.ltb_ge, Z.leb_gt in E1.
      rewrite andb_false_iff, Z.ltb_ge, Z.leb_gt in E2.
      destruct c; simpl; split;
        solve [ discriminate
              | intros _; right; split; [lia | intuition discriminate]
              | intros [? | [_ Hc]]; [lia | first [reflexivity | exfalso; apply Hc; tauto]] ].
Qed.

Lemma is_retryable_classification_witness :
  RetryPolicy.is_retryable env_advanced_retry http_error 404 = false
  /\ RetryPolicy.is_retryable env_advanced_retry invalid_input 503 = true.
Proof.
  split.
  - destruct (RetryPolicy.is_retryable env_advanced_retry http_error 404) eqn:E;
      [|reflexivity].
    apply (is_retryable_classification env_advanced_retry http_error 404 eq_refl) in E.
    destruct E as [E | [E _]]; [lia | exfalso; apply E; lia].
  - apply (is_retryable_classification env_advanced_retry invalid_input 503 eq_refl).
    left. lia.
Defined.

(** X5: with the advanced-retry flag on, once the budget test answers
    "exhausted" for some elapsed time it answers the same for every longer
    one (as long as elapsed time plus backoff stays in the 64-bit range). *)
Theorem budget_exhaustion_is_monotone :
  forall (env : gmap string string) (cfg : RetryPolicy.Config)
         (elapsed elapsed' attempt : Z),
    FeatureFlags.is_advanced_retry_enabled env = true ->
    elapsed <= elapsed' ->
    - 2 ^ 63 <= elapsed + RetryPolicy.calculate_backoff_delay env cfg attempt ->
    elapsed' + RetryPolicy.calculate_backoff_delay env cfg attempt < 2 ^ 63 ->
    RetryPolicy.is_budget_exhausted env cfg elapsed attempt = true ->
    RetryPolicy.is_budget_exhausted env cfg elapsed' attempt = true.
Proof.
  intros env cfg e e' a Hon Hle Hlo Hhi. unfold RetryPolicy.is_budget_exhausted.
  rewrite Hon. simpl negb. cbv iota.
  rewrite !wrap64_small by lia.
  destruct (Z.leb_spec (RetryPolicy.total_timeout_ms cfg) e),
    (Z.leb_spec (RetryPolicy.total_timeout_ms cfg) e'); try done; try lia.
  destruct (Z.leb_spec (RetryPolicy.total_timeout_ms cfg)
              (e + RetryPolicy.calculate_backoff_delay env cfg a)),
    (Z.leb_spec (RetryPolicy.total_timeout_ms cfg)
       (e' + RetryPolicy.calculate_backoff_delay env cfg a)); try done; lia.
Qed.

Lemma budget_exhaustion_is_monotone_witness :
  RetryPolicy.is_budget_exhausted env_advanced_retry RetryPolicy.default_Config
    29900 0 = true
  /\ RetryPolicy.is_budget_exhausted env_advanced_retry RetryPolicy.default_Config
       29950 0 = true.
Proof.
  assert (H : RetryPolicy.is_budget_exhausted env_advanced_retry
                RetryPolicy.default_Config 29900 0 = true) by (vm_compute; reflexivity).
  split; [exact H|].
  apply (budget_exhaustion_is_monotone env_advanced_retry RetryPolicy.default_Config
           29900 29950 0); try (vm_compute; reflexivity); try exact H;
    vm_compute; discriminate.
Defined.

(** X6: with the advanced-retry flag on, for a base delay that is not
    negative and attempts whose product [base * 2^attempt] stays below 2^63,
    the backoff is [min(base * 2^attempt, max_delay)], it does not decrease
    from one attempt to a later one, and it never exceeds [max_delay]. *)
Theorem backoff_capped_exponential_in_range :
  forall (env : gmap string string) (cfg : RetryPolicy.Config) (a a' : Z),
    FeatureFlags.is_advanced_retry_enabled env = true ->
    0 <= a <= a' -> a' < 63 ->
    0 <= RetryPolicy.base_delay_ms cfg ->
    RetryPolicy.base_delay_ms cfg * 2 ^ a' < 2 ^ 63 ->
    RetryPolicy.calculate_backoff_delay env cfg a'
    = Z.min (RetryPolicy.base_delay_ms cfg * 2 ^ a') (RetryPolicy.max_delay_ms cfg)
    /\ RetryPolicy.calculate_backoff_delay env cfg a
       <= RetryPolicy.calculate_backoff_delay env cfg a'
       <= RetryPolicy.max_delay_ms cfg.
Proof.
  intros env cfg a a' Hon Ha Ha' Hb Hlt. split.
  - apply backoff_exact_in_range; (done || lia).
  - by apply backoff_monotone_in_range.
Qed.

Lemma backoff_capped_exponential_in_range_witness :
  RetryPolicy.calculate_backoff_delay env_advanced_retry RetryPolicy.default_Config 1
  = 200
  /\ RetryPolicy.calculate_backoff_delay env_advanced_retry RetryPolicy.default_Config 0
     <= RetryPolicy.calculate_backoff_delay env_advanced_retry
          RetryPolicy.default_Config 1
     <= 5000.
Proof.
  apply (backoff_capped_exponential_in_range env_advanced_retry
           RetryPolicy.default_Config 0 1);
    first [ lia | vm_compute; reflexivity | vm_compute; discriminate ].
Defined.

(** ** Executor stage: the retry loop *)

(** Whatever holds of the results the handler returns (as timed and numbered
    by the loop), and is kept by the two budget exits, holds of the result of
    the loop. [lo] and [hi] bound the attempt numbers the loop can use. *)
Lemma retry_loop_invariant (P : StepResult -> Prop) env executor_ req cfg start lo hi :
  (forall a msg fr, lo <= a <= hi -> P fr -> P (Executor.mark_timeout a msg fr)) ->
  (forall k d r a, lo <= a <= hi ->
     execute_impl executor_ k req (context_ executor_) = (d, Value r) ->
     P (set_retries_used a (set_latency_ms d r))) ->
  forall remaining attempt now fr http,
    lo <= attempt -> attempt + Z.of_nat remaining - 1 <= hi ->
    P fr ->
    P (Executor.retry_loop env executor_ req cfg start remaining attempt now fr http).
Proof.
  intros Htimeout Hresult remaining.
  induction remaining as [|remaining IH]; intros attempt now fr http Hlo Hhi Hfr.
  - exact Hfr.
  - assert (Ha : lo <= attempt <= hi) by lia.
    assert (Hnext : attempt + 1 + Z.of_nat remaining - 1 <= hi) by lia.
    simpl. destruct (RetryPolicy.is_budget_exhausted env cfg (now - start) attempt).
    { by apply Htimeout. }
    unfold Executor.execute_single_attempt.
    destruct (execute_impl executor_ (Z.to_nat attempt) req (context_ executor_))
      as [d [r | c m]] eqn:E.
    + pose proof (Hresult _ _ _ attempt Ha E) as Hr.
      replace (now + d - now) with d by lia.
      destruct (bool_decide _); [exact Hr|].
      destruct (negb _); [exact Hr|].
      destruct (attempt <? RetryPolicy.max_retries cfg); [|apply IH; (lia || done)].
      destruct (RetryPolicy.total_timeout_ms cfg <=? _);
        [by apply Htimeout | apply IH; (lia || done)].
    + rewrite network_error_is_retryable. simpl negb. cbv iota.
      destruct (attempt <? RetryPolicy.max_retries cfg); [|apply IH; (lia || done)].
      destruct (RetryPolicy.total_timeout_ms cfg <=? _);
        [by apply Htimeout | apply IH; (lia || done)].
Qed.

Lemma execute_with_retry_unfold env executor_ req now :
  Executor.execute_with_retry env executor_ req now
  = Value (Executor.retry_loop env executor_ req (retry_config_of req) now
             (Z.to_nat (retry_count req + 1)) 0 now default_StepResult 0).
Proof. reflexivity. Qed.

(** X7: a request with a negative retry count is answered with the
    default-constructed result, a success, without the handler being
    called. *)
Theorem negative_retry_count_skips_handler :
  forall (env : gmap string string) (executor_ : BlockExecutor)
         (req : StepRequest) (now : Z),
    retry_count req < 0 ->
    Executor.execute_with_retry env executor_ req now = Value default_StepResult.
Proof.
  intros env executor_ req now Hneg. rewrite execute_with_retry_unfold.
  replace (Z.to_nat (retry_count req + 1)) with O by lia. reflexivity.
Qed.

Lemma negative_retry_count_skips_handler_witness :
  Executor.execute_with_retry env_baseline crashing_executor
    (with_budget 30000 (-1) blob_get_request) 0 = Value default_StepResult.
Proof.
  apply negative_retry_count_skips_handler. vm_compute. reflexivity.
Defined.

Lemma backoff_0_advanced env req :
  FeatureFlags.is_advanced_retry_enabled env = true ->
  RetryPolicy.calculate_backoff_delay env (retry_config_of req) 0 = 100.
Proof. intros H. unfold RetryPolicy.calculate_backoff_delay. by rewrite H. Qed.

(** X8: with the advanced-retry flag on, a request whose deadline is 100 ms or
    less is never executed: whatever the handler, the budget test fails
    before the first attempt and the result is a timeout with no retries
    used. *)
Theorem short_deadline_is_never_executed :
  forall (env : gmap string string) (executor_ : BlockExecutor)
         (req : StepRequest) (now : Z),
    FeatureFlags.is_advanced_retry_enabled env = true ->
    timeout_ms req <= 100 ->
    0 <= retry_count req ->
    Executor.execute_with_retry env executor_ req now
    = Value (Executor.mark_timeout 0 "Retry budget exhausted: total timeout exceeded"
               default_StepResult).
Proof.
  intros env executor_ req now Hon Hshort Hrc. rewrite execute_with_retry_unfold.
  destruct (Z.to_nat (retry_count req + 1)) as [|n] eqn:En; [lia|].
  simpl. unfold RetryPolicy.is_budget_exhausted.
  rewrite Hon, (backoff_0_advanced env req Hon). simpl negb. cbv iota.
  replace (now - now) with 0 by lia. change (wrap64 (0 + 100)) with 100.
  change (RetryPolicy.total_timeout_ms (retry_config_of req)) with (timeout_ms req).
  destruct (timeout_ms req <=? 0); [done|].
  destruct (Z.leb_spec (timeout_ms req) 100); [done | lia].
Qed.

Lemma short_deadline_is_never_executed_witness :
  Executor.execute_with_retry env_advanced_retry tenant_executor
    (with_budget 100 3 blob_get_request) 0
  = Value (Executor.mark_timeout 0 "Retry budget exhausted: total timeout exceeded"
             default_StepResult).
Proof.
  apply short_deadline_is_never_executed;
    first [ vm_compute; reflexivity | vm_compute; discriminate ].
Defined.

(** X9: when the first call of the handler returns a result with status
    [ok] (and, with advanced retry on, the deadline is above 100 ms), that
    result is returned with the measured latency and [retries_used = 0]. *)
Theorem first_success_is_returned :
  forall (env : gmap string string) (executor_ : BlockExecutor)
         (req : StepRequest) (now d : Z) (r : StepResult),
    0 <= retry_count req ->
    FeatureFlags.is_advanced_retry_enabled env = false \/ 100 < timeout_ms req ->
    execute_impl executor_ O req (context_ executor_) = (d, Value r) ->
    status r = ok ->
    Executor.execute_with_retry env executor_ req now
    = Value (set_retries_used 0 (set_latency_ms d r)).
Proof.
  intros env executor_ req now d r Hrc Hbudget Hcall Hok.
  rewrite execute_with_retry_unfold.
  destruct (Z.to_nat (retry_count req + 1)) as [|n] eqn:En; [lia|].
  simpl.
  assert (Hex : RetryPolicy.is_budget_exhausted env (retry_config_of req) (now - now) 0
                = false).
  { unfold RetryPolicy.is_budget_exhausted.
    destruct (FeatureFlags.is_advanced_retry_enabled env) eqn:Hflag; [|done].
    destruct Hbudget as [? | Hbudget]; [done|].
    rewrite (backoff_0_advanced env req Hflag). simpl negb. cbv iota.
    replace (now - now) with 0 by lia. change (wrap64 (0 + 100)) with 100.
    change (RetryPolicy.total_timeout_ms (retry_config_of req)) with (timeout_ms req).
    destruct (Z.leb_spec (timeout_ms req) 0); [lia|].
    destruct (Z.leb_spec (timeout_ms req) 100); [lia | done]. }
  change (RetryPolicy.is_budget_exhausted env _ (now - now) 0)
    with (RetryPolicy.is_budget_exhausted env (retry_config_of req) (now - now) 0).
  rewrite Hex. unfold Executor.execute_single_attempt.
  change (Z.to_nat 0) with O. rewrite Hcall.
  replace (now + d - now) with d by lia. simpl.
  rewrite Hok. by rewrite bool_decide_eq_true_2.
Qed.

Lemma first_success_is_returned_witness :
  Executor.execute_with_retry env_advanced_retry tenant_executor blob_get_request 0
  = Value (set_retries_used 0
             (set_latency_ms 10 (success (metadata_from_context ctx_tenant) ∅ 10))).
Proof.
  apply first_success_is_returned;
    first [ reflexivity | vm_compute; discriminate | right; vm_compute; reflexivity ].
Defined.

(** X10: the result of [execute_with_retry] reports a number of retries
    between 0 and the request's retry count (0 when that count is
    negative). *)
Theorem retries_used_is_bounded :
  forall (env : gmap string string) (executor_ : BlockExecutor)
         (req : StepRequest) (now : Z),
    exists r : StepResult,
      Executor.execute_with_retry env executor_ req now = Value r
      /\ 0 <= retries_used r <= Z.max 0 (retry_count req).
Proof.
  intros env executor_ req now. rewrite execute_with_retry_unfold.
  eexists. split; [reflexivity|].
  apply (retry_loop_invariant
           (fun r => 0 <= retries_used r <= Z.max 0 (retry_count req))
           env executor_ req _ now 0 (Z.max 0 (retry_count req))).
  - intros a msg fr Ha _. simpl. lia.
  - intros k d r a Ha _. simpl. lia.
  - lia.
  - lia.
  - simpl. lia.
Qed.

(** X11: if every result the handler returns satisfies the StepResult
    invariants once the executor has written the measured latency into it,
    then so does the result of [execute_with_retry]. *)
Theorem retry_keeps_result_invariants :
  forall (env : gmap string string) (executor_ : BlockExecutor)
         (req : StepRequest) (now : Z),
    (forall k d r,
        execute_impl executor_ k req (context_ executor_) = (d, Value r) ->
        StepResult_invariants (set_latency_ms d r)) ->
    exists r : StepResult,
      Executor.execute_with_retry env executor_ req now = Value r
      /\ StepResult_invariants r.
Proof.
  intros env executor_ req now Hhandler. rewrite execute_with_retry_unfold.
  eexists. split; [reflexivity|].
  apply (retry_loop_invariant StepResult_invariants
           env executor_ req _ now 0 (Z.max 0 (retry_count req))).
  - intros a msg fr _ (_ & _ & _ & _ & Hlat). unfold StepResult_invariants. simpl.
    repeat split; try done; intros; intuition discriminate.
  - intros k d r a _ E. apply (Hhandler k d r E).
  - lia.
  - lia.
  - unfold StepResult_invariants. simpl.
    repeat split; try done; intros; intuition discriminate.
Qed.

Lemma retry_keeps_result_invariants_witness :
  exists r : StepResult,
    Executor.execute_with_retry env_advanced_retry tenant_executor blob_get_request 0
    = Value r
    /\ StepResult_invariants r.
Proof.
  apply retry_keeps_result_invariants.
  intros k d r E. injection E as <- <-.
  unfold StepResult_invariants. simpl.
  repeat split; try done; intros; intuition discriminate.
Defined.

(** X12: if every result of the handler carries the metadata [m], the result
    of [execute_with_retry] carries either [m] or, when it was not built
    from a handler result, empty metadata. *)
Theorem retry_metadata_origin :
  forall (env : gmap string string) (executor_ : BlockExecutor)
         (req : StepRequest) (now : Z) (m : ResultMetadata),
    (forall k d r,
        execute_impl executor_ k req (context_ executor_) = (d, Value r) ->
        metadata r = m) ->
    exists r : StepResult,
      Executor.execute_with_retry env executor_ req now = Value r
      /\ (metadata r = m \/ metadata r = empty_metadata).
Proof.
  intros env executor_ req now m Hhandler. rewrite execute_with_retry_unfold.
  eexists. split; [reflexivity|].
  apply (retry_loop_invariant (fun r => metadata r = m \/ metadata r = empty_metadata)
           env executor_ req _ now 0 (Z.max 0 (retry_count req))).
  - intros a msg fr _ H. exact H.
  - intros k d r a _ E. left. apply (Hhandler k d r E).
  - lia.
  - lia.
  - by right.
Qed.

Lemma retry_metadata_origin_witness :
  exists r : StepResult,
    Executor.execute_with_retry env_advanced_retry tenant_executor blob_get_request 0
    = Value r
    /\ (metadata r = metadata_from_context ctx_tenant \/ metadata r = empty_metadata).
Proof.
  apply retry_metadata_origin.
  intros k d r E. injection E as <- <-. reflexivity.
Defined.

(** A retryable error without a [status_code] output, then a success: the
    second result is returned, with one retry used. *)
Lemma retry_then_success env executor_ req now d0 d1 r0 r1 :
  FeatureFlags.is_advanced_retry_enabled env = true ->
  1 <= retry_count req ->
  0 <= d0 -> d0 + 300 < timeout_ms req -> timeout_ms req < 2 ^ 62 ->
  execute_impl executor_ 0%nat req (context_ executor_) = (d0, Value r0) ->
  status r0 = error ->
  outputs r0 !! "status_code" = None ->
  RetryPolicy.is_retryable env (error_code r0) 0 = true ->
  execute_impl executor_ 1%nat req (context_ executor_) = (d1, Value r1) ->
  status r1 = ok ->
  Executor.execute_with_retry env executor_ req now
  = Value (set_retries_used 1 (set_latency_ms d1 r1)).
Proof.
  intros Hon Hrc Hd0 Hbudget Hmax Hcall0 Herr Hnocode Hretry Hcall1 Hok.
  rewrite execute_with_retry_unfold.
  destruct (Z.to_nat (retry_count req + 1)) as [|[|n]] eqn:En; [lia | lia |].
  assert (Hb0 : RetryPolicy.calculate_backoff_delay env (retry_config_of req) 0 = 100)
    by (by apply backoff_0_advanced).
  assert (Hb1 : RetryPolicy.calculate_backoff_delay env (retry_config_of req) 1 = 200).
  { unfold RetryPolicy.calculate_backoff_delay. by rewrite Hon. }
  assert (Hex0 : RetryPolicy.is_budget_exhausted env (retry_config_of req) (now - now) 0
                 = false).
  { unfold RetryPolicy.is_budget_exhausted. rewrite Hon, Hb0. simpl negb. cbv iota.
    replace (now - now) with 0 by lia. change (wrap64 (0 + 100)) with 100.
    change (RetryPolicy.total_timeout_ms (retry_config_of req)) with (timeout_ms req).
    destruct (Z.leb_spec (timeout_ms req) 0); [lia|].
    destruct (Z.leb_spec (timeout_ms req) 100); [lia | done]. }
  assert (Hex1 : RetryPolicy.is_budget_exhausted env (retry_config_of req)
                   (Executor.sleep_for 100 (now + d0) - now) 1 = false).
  { unfold RetryPolicy.is_budget_exhausted, Executor.sleep_for.
    rewrite Hon, Hb1. simpl negb. cbv iota.
    replace (now + d0 + Z.max 0 100 - now) with (d0 + 100) by lia.
    rewrite wrap64_small by lia.
    change (RetryPolicy.total_timeout_ms (retry_config_of req)) with (timeout_ms req).
    destruct (Z.leb_spec (timeout_ms req) (d0 + 100)); [lia|].
    destruct (Z.leb_spec (timeout_ms req) (d0 + 100 + 200)); [lia | done]. }
  cbn [Executor.retry_loop].
  fold (retry_config_of req). rewrite Hex0.
  unfold Executor.execute_single_attempt at 1.
  change (Z.to_nat 0) with O. rewrite Hcall0.
  cbn [status error_code set_retries_used set_latency_ms outputs].
  rewrite Herr, Hnocode.
  rewrite (bool_decide_eq_false_2 (error = ok)) by discriminate.
  assert (Hhttp : (if String.eqb (req_type req) "http.request" then 0 else 0) = 0)
    by (by destruct (String.eqb _ _)).
  rewrite Hhttp, Hretry. simpl negb. cbv iota.
  change (RetryPolicy.max_retries (retry_config_of req)) with (retry_count req).
  destruct (Z.ltb_spec 0 (retry_count req)); [|lia].
  rewrite Hb0.
  change (RetryPolicy.total_timeout_ms (retry_config_of req)) with (timeout_ms req).
  destruct (Z.leb_spec (timeout_ms req) (now + d0 + 100 - now)); [lia|].
  change (0 + 1) with 1. rewrite Hex1.
  unfold Executor.execute_single_attempt.
  change (Z.to_nat 1) with 1%nat. rewrite Hcall1.
  cbn [status set_retries_used set_latency_ms]. rewrite Hok.
  rewrite bool_decide_eq_true_2 by done.
  do 2 f_equal. unfold set_latency_ms. f_equal. lia.
Qed.

(** ** HTTP handler *)

Lemma http_response_result env w req ctx url method resp :
  inputs req !! "url" = Some url ->
  inputs req !! "method" = Some method ->
  parse_headers w (get_input_or_default req "headers" "{}") = None ->
  (forall u m b h c t, curl_perform w u m b h c t = Ret resp) ->
  HttpBlockExecutor.execute_impl env w req ctx
  = Value (if (200 <=? resp_status_code resp) && (resp_status_code resp <? 300)
           then success (metadata_from_context ctx)
                  (<["headers" := resp_headers resp]>
                     (<["body" := resp_body resp]>
                        (<["status_code" := Str.to_string (resp_status_code resp)]> ∅)))
                  (http_clock_end w - http_clock_start w)
           else error_result http_error
                  ("HTTP request failed with status: "
                   +:+ Str.to_string (resp_status_code resp))
                  (metadata_from_context ctx)
                  (http_clock_end w - http_clock_start w)).
Proof.
  intros Hurl Hmethod Hparse Hcurl. unfold HttpBlockExecutor.execute_impl.
  rewrite validate_required_inputs_present
    by (repeat constructor; rewrite ?Hurl, ?Hmethod; eauto).
  simpl negb. cbv iota. rewrite Hparse.
  unfold HttpBlockExecutor.perform_http_request.
  destruct (HttpBlockExecutor.curl_timeouts env (timeout_ms req)) as [connect total].
  rewrite Hcurl. unfold try_catch. simpl.
  by destruct ((200 <=? resp_status_code resp) && (resp_status_code resp <? 300)).
Qed.

(** X13: the HTTP handler always returns a StepResult with the metadata of
    its context, and the result is either a success (error code [none], a
    [status_code] output between 200 and 299) or an error with no outputs at
    all whose code is one of [missing_required_field], [invalid_format],
    [http_error], [connection_timeout], [network_error]; it is never a
    timeout or a cancellation. *)
Theorem http_handler_results :
  forall (env : gmap string string) (w : HttpWorld) (req : StepRequest)
         (ctx : BlockContext),
    exists r : StepResult,
      HttpBlockExecutor.execute_impl env w req ctx = Value r
      /\ metadata r = metadata_from_context ctx
      /\ ((status r = ok /\ error_code r = none
           /\ exists code, 200 <= code < 300
                           /\ outputs r !! "status_code" = Some (Str.to_string code))
          \/ (status r = error /\ outputs r = ∅
              /\ In (error_code r)
                    [missing_required_field; invalid_format; http_error;
                     connection_timeout; network_error])).
Proof.
  intros env w req ctx. unfold HttpBlockExecutor.execute_impl.
  destruct (negb _).
  { eexists. split; [reflexivity|]. split; [done|]. right. simpl. tauto. }
  destruct (parse_headers w _).
  { eexists. split; [reflexivity|]. split; [done|]. right. simpl. tauto. }
  destruct (HttpBlockExecutor.perform_http_request env w _ _ _ _ _) as [resp | what].
  - simpl.
    destruct (Z.leb_spec 200 (resp_status_code resp)),
      (Z.ltb_spec (resp_status_code resp) 300); simpl;
      (eexists; split; [reflexivity|]; split; [done|]);
      try (right; simpl; tauto).
    left. repeat split. exists (resp_status_code resp). split; [lia|].
    simpl. by rewrite !lookup_insert_ne, lookup_insert_eq by discriminate.
  - simpl. eexists. split; [reflexivity|]. split; [done|]. right. simpl.
    split; [done|]. split; [done|].
    destruct (_ || _); tauto.
Qed.

(** X14: with advanced retry on, an HTTP 4xx answer is retried. The error
    result of the handler has no [status_code] output, so the executor
    classifies [http_error] with status 0, which is retryable: a server that
    answers 4xx and then 2xx yields a success with one retry used. *)
Theorem http_4xx_is_retried :
  forall (env : gmap string string) (worlds : nat -> HttpWorld) (ctx : BlockContext)
         (req : StepRequest) (now : Z) (url method : string)
         (resp0 resp1 : HttpResponse),
    FeatureFlags.is_advanced_retry_enabled env = true ->
    inputs req !! "url" = Some url ->
    inputs req !! "method" = Some method ->
    1 <= retry_count req ->
    0 <= http_clock_end (worlds 0%nat) - http_clock_start (worlds 0%nat) ->
    http_clock_end (worlds 0%nat) - http_clock_start (worlds 0%nat) + 300
      < timeout_ms req ->
    timeout_ms req < 2 ^ 62 ->
    (forall k, parse_headers (worlds k) (get_input_or_default req "headers" "{}") = None) ->
    (forall u m b h c t, curl_perform (worlds 0%nat) u m b h c t = Ret resp0) ->
    (forall u m b h c t, curl_perform (worlds 1%nat) u m b h c t = Ret resp1) ->
    400 <= resp_status_code resp0 < 500 ->
    200 <= resp_status_code resp1 < 300 ->
    exists r : StepResult,
      Executor.execute_with_retry env (http_executor env worlds ctx) req now = Value r
      /\ status r = ok
      /\ retries_used r = 1
      /\ outputs r !! "status_code" = Some (Str.to_string (resp_status_code resp1)).
Proof.
  intros env worlds ctx req now url method resp0 resp1
    Hon Hurl Hmethod Hrc Hd0 Hbudget Hmax Hparse Hcurl0 Hcurl1 H4xx H2xx.
  pose proof (http_response_result env (worlds 0%nat) req ctx url method resp0
                Hurl Hmethod (Hparse _) Hcurl0) as E0.
  pose proof (http_response_result env (worlds 1%nat) req ctx url method resp1
                Hurl Hmethod (Hparse _) Hcurl1) as E1.
  destruct (Z.leb_spec 200 (resp_status_code resp0)); [|lia].
  destruct (Z.ltb_spec (resp_status_code resp0) 300); [lia|].
  destruct (Z.leb_spec 200 (resp_status_code resp1)); [|lia].
  destruct (Z.ltb_spec (resp_status_code resp1) 300); [|lia].
  simpl in E0, E1.
  eexists. split.
  - apply (retry_then_success env (http_executor env worlds ctx) req now
             (http_clock_end (worlds 0%nat) - http_clock_start (worlds 0%nat))
             (http_clock_end (worlds 1%nat) - http_clock_start (worlds 1%nat))
             (error_result http_error
                ("HTTP request failed with status: "
                 +:+ Str.to_string (resp_status_code resp0))
                (metadata_from_context ctx)
                (http_clock_end (worlds 0%nat) - http_clock_start (worlds 0%nat)))
             (success (metadata_from_context ctx)
                (<["headers" := resp_headers resp1]>
                   (<["body" := resp_body resp1]>
                      (<["status_code" := Str.to_string (resp_status_code resp1)]> ∅)))
                (http_clock_end (worlds 1%nat) - http_clock_start (worlds 1%nat))));
      try assumption; try reflexivity;
      first [ simpl; by rewrite E0
            | simpl; by rewrite E1
            | simpl; unfold RetryPolicy.is_retryable; by rewrite Hon ].
  - repeat split; simpl;
      by rewrite !lookup_insert_ne, lookup_insert_eq by discriminate.
Qed.

Lemma http_4xx_is_retried_witness :
  exists r : StepResult,
    Executor.execute_with_retry env_advanced_retry
      (http_executor env_advanced_retry not_found_then_ok ctx_tenant)
      http_get_request 0 = Value r
    /\ status r = ok
    /\ retries_used r = 1
    /\ outputs r !! "status_code" = Some "200".
Proof.
  apply (http_4xx_is_retried env_advanced_retry not_found_then_ok ctx_tenant
           http_get_request 0 "https://example.test/ok" "GET"
           {| resp_status_code := 404; resp_body := "hello"; resp_headers := "" |}
           {| resp_status_code := 200; resp_body := "hello"; resp_headers := "" |});
    try (vm_compute; reflexivity); try (vm_compute; discriminate);
    try (intros; reflexivity); try (simpl; lia).
  intros [|k]; reflexivity.
Defined.

(** X15: [curl_timeouts] never hands libcurl a transfer deadline above the
    request's [timeout_ms]; with the complete-timeout flag on and a deadline
    above 5000 ms, the transfer deadline is 5000 ms shorter than
    [timeout_ms] and the connect timeout is 5000 ms. *)
Theorem curl_deadline_within_request :
  forall (env : gmap string string) (t : Z),
    - 2 ^ 62 <= t < 2 ^ 62 ->
    snd (HttpBlockExecutor.curl_timeouts env t) <= t
    /\ (FeatureFlags.is_complete_timeout_enabled env = true -> 5000 < t ->
        HttpBlockExecutor.curl_timeouts env t = (Some 5000, t - 5000))
    /\ (FeatureFlags.is_complete_timeout_enabled env = false ->
        HttpBlockExecutor.curl_timeouts env t = (None, t)).
Proof.
  intros env t Ht. unfold HttpBlockExecutor.curl_timeouts,
    TimeoutEnforcement.get_http_connection_timeout_ms.
  destruct (FeatureFlags.is_complete_timeout_enabled env); simpl.
  - rewrite wrap64_small by lia.
    destruct (Z.ltb_spec 0 (t - 5000)); simpl; repeat split; intros;
      first [ lia | done ].
  - repeat split; intros; first [ lia | done ].
Qed.

Lemma curl_deadline_within_request_witness :
  HttpBlockExecutor.curl_timeouts env_complete_timeout 30000 = (Some 5000, 25000).
Proof.
  destruct (curl_deadline_within_request env_complete_timeout 30000) as (_ & H & _);
    [lia|].
  apply H; [vm_compute; reflexivity | lia].
Defined.

(** ** Metrics recorded by the executor *)



(** ** Pool stage: dispatching and cancelling *)

Lemma sent_requests_app effs1 effs2 :
  sent_requests (effs1 ++ effs2) = sent_requests effs1 ++ sent_requests effs2.
Proof.
  induction effs1 as [|e effs1 IH]; [done|]. destruct e; simpl; by rewrite ?IH.
Qed.

Lemma sent_requests_metrics env st :
  sent_requests (Pool.update_queue_metrics env st) = [].
Proof. unfold Pool.update_queue_metrics. by destruct (negb _). Qed.

Lemma process_pending_from_spec env st queue :
  let st' := fst (Pool.process_pending_from env st queue) in
  let sent := sent_requests (snd (Pool.process_pending_from env st queue)) in
  queue = sent ++ pending_requests_ st'
  /\ current_load_ st' = current_load_ st + Z.of_nat (length sent)
  /\ max_concurrency_ st' = max_concurrency_ st
  /\ max_queue_size_ st' = max_queue_size_ st
  /\ resource_class_ st' = resource_class_ st
  /\ current_load_ st' <= Z.max (current_load_ st) (max_concurrency_ st)
  /\ (pending_requests_ st' = [] \/ max_concurrency_ st <= current_load_ st').
Proof.
  revert st. induction queue as [|[requester request] rest IH]; intros st; simpl.
  - repeat split; (lia || tauto).
  - destruct (Z.ltb_spec (current_load_ st) (max_concurrency_ st)).
    + specialize (IH (Pool.with_load (current_load_ st + 1) (Pool.with_pending rest st))).
      destruct (Pool.process_pending_from env _ rest) as [st2 effs].
      simpl in *. rewrite sent_requests_app, sent_requests_metrics. simpl.
      destruct IH as (H1 & H2 & H3 & H4 & H5 & H6 & H7).
      repeat split; first [congruence | lia | tauto].
    + simpl. repeat split; (lia || tauto).
Qed.

(** X17: [process_pending] dispatches the head of the queue, in queue order,
    to the actors that submitted it, one request per free slot: the old queue
    is the requests sent followed by the new queue, the load grows by the
    number sent and does not pass [max_concurrency] (or its old value), and
    on return the queue is empty or the pool is full. *)
Theorem process_pending_is_fifo :
  forall (env : gmap string string) (st : PoolActorState),
    let st' := fst (Pool.process_pending env st) in
    let sent := sent_requests (snd (Pool.process_pending env st)) in
    pending_requests_ st = sent ++ pending_requests_ st'
    /\ current_load_ st' = current_load_ st + Z.of_nat (length sent)
    /\ current_load_ st' <= Z.max (current_load_ st) (max_concurrency_ st)
    /\ (pending_requests_ st' = [] \/ max_concurrency_ st <= current_load_ st').
Proof.
  intros env st. unfold Pool.process_pending.
  destruct (process_pending_from_spec env st (pending_requests_ st))
    as (H1 & H2 & _ & _ & _ & H6 & H7).
  repeat split; assumption.
Qed.

(** X18: a submit never takes a pool past its concurrency limit and never
    lengthens its queue: if the load is within [max_concurrency] before the
    execute handler runs, it is afterwards, and the pending queue is no
    longer than before. *)
Theorem submit_keeps_pool_within_limits :
  forall (env : gmap string string) (st : PoolActorState) (req : StepRequest),
    current_load_ st <= max_concurrency_ st ->
    let st' := fst (Pool.on_execute env st req) in
    current_load_ st' <= max_concurrency_ st'
    /\ max_concurrency_ st' = max_concurrency_ st
    /\ (length (pending_requests_ st') <= length (pending_requests_ st))%nat.
Proof.
  intros env st req Hload. unfold Pool.on_execute.
  destruct (Z.leb_spec (max_concurrency_ st) (current_load_ st)).
  - destruct (_ && _); simpl; repeat split; lia.
  - unfold Pool.process_pending.
    pose proof (process_pending_from_spec env
                  (Pool.with_load (current_load_ st + 1) st)
                  (pending_requests_ (Pool.with_load (current_load_ st + 1) st)))
      as (H1 & H2 & H3 & _ & _ & H6 & _).
    destruct (Pool.process_pending_from env _ _) as [st2 effs]. simpl in *.
    repeat split; try lia. rewrite H1, length_app. lia.
Qed.

Lemma submit_keeps_pool_within_limits_witness :
  current_load_ (fst (Pool.on_execute env_baseline queued_pool blob_put_request)) <= 2
  /\ (length (pending_requests_
                (fst (Pool.on_execute env_baseline queued_pool blob_put_request)))
      <= 3)%nat.
Proof.
  destruct (submit_keeps_pool_within_limits env_baseline queued_pool blob_put_request)
    as (H1 & H2 & H3); [vm_compute; discriminate|].
  split; [rewrite H2 in H1; exact H1 | exact H3].
Defined.

Lemma process_pending_from_no_warn env st queue msg :
  ~ In (log_warn msg) (snd (Pool.process_pending_from env st queue)).
Proof.
  revert st. induction queue as [|[requester request] rest IH]; intros st; simpl.
  - tauto.
  - destruct (current_load_ st <? max_concurrency_ st); simpl; [|tauto].
    specialize (IH (Pool.with_load (current_load_ st + 1) (Pool.with_pending rest st))).
    destruct (Pool.process_pending_from env _ rest) as [st2 effs]. simpl in *.
    intros [H | [H | H]]; try discriminate.
    apply in_app_or in H as [H | H]; [|tauto].
    unfold Pool.update_queue_metrics in H.
    destruct (negb _); simpl in H; intuition discriminate.
Qed.

(** X19: the execute handler logs a rejection exactly when the pool is at its
    concurrency limit, the queue-management flag is on at that moment, and
    the queue bound stored at construction is positive and reached. A pool
    constructed while the flag was off stores the bound 0 and so never
    rejects, even if the flag is on when the request arrives. *)
Theorem rejection_condition :
  forall (env : gmap string string) (st : PoolActorState) (req : StepRequest),
    (In (log_warn "Queue full - rejecting request") (snd (Pool.on_execute env st req))
     <-> max_concurrency_ st <= current_load_ st
         /\ FeatureFlags.is_queue_management_enabled env = true
         /\ 0 < max_queue_size_ st
         /\ max_queue_size_ st <= Z.of_nat (length (pending_requests_ st)))
    /\ (forall env0 rc n,
          FeatureFlags.is_queue_management_enabled env0 = false ->
          max_queue_size_ (Pool.init env0 rc n) = 0).
Proof.
  intros env st req. split.
  - unfold Pool.on_execute, Pool.get_queue_depth.
    destruct (Z.leb_spec (max_concurrency_ st) (current_load_ st)).
    + destruct (FeatureFlags.is_queue_management_enabled env);
        destruct (Z.ltb_spec 0 (max_queue_size_ st));
        destruct (Z.leb_spec (max_queue_size_ st)
                    (Z.of_nat (length (pending_requests_ st)))); simpl;
        (split; [| intros (? & ? & ? & ?); first [lia | done | by left]]);
        try (intros _; repeat split; (done || lia));
        unfold Pool.update_queue_metrics; destruct (negb _); simpl;
        intuition discriminate.
    + split; [| intros (? & _); lia].
      unfold Pool.process_pending.
      pose proof (process_pending_from_no_warn env
                    (Pool.with_load (current_load_ st + 1) st)
                    (pending_requests_ (Pool.with_load (current_load_ st + 1) st))
                    "Queue full - rejecting request") as Hno.
      destruct (Pool.process_pending_from env _ _) as [st2 effs]. simpl in *.
      intros [H' | H']; [discriminate|].
      apply in_app_or in H' as [H' | H']; [tauto|].
      unfold Pool.update_queue_metrics in H'.
      destruct (negb _); simpl in H'; intuition discriminate.
  - intros env0 rc n Hoff. unfold Pool.init. simpl. by rewrite Hoff.
Qed.

Lemma rejection_condition_witness :
  max_queue_size_ (Pool.init env_baseline io 1) = 0
  /\ ~ In (log_warn "Queue full - rejecting request")
         (snd (Pool.on_execute env_queue_management
                 (Pool.with_load 1 (Pool.init env_baseline io 1)) blob_put_request)).
Proof.
  destruct (rejection_condition env_queue_management
              (Pool.with_load 1 (Pool.init env_baseline io 1)) blob_put_request)
    as [Hiff Hinit].
  split; [apply Hinit; reflexivity|].
  intros H. apply Hiff in H as (_ & _ & H & _). vm_compute in H. discriminate.
Defined.

Lemma filter_sublist {A} (f : A -> bool) (l : list A) :
  sublist (List.filter f l) l.
Proof.
  induction l as [|x l IH]; simpl; [constructor|].
  destruct (f x); [by apply sublist_skip | by apply sublist_cons].
Qed.

Lemma filter_twice {A} (f : A -> bool) (l : list A) :
  List.filter f (List.filter f l) = List.filter f l.
Proof.
  induction l as [|x l IH]; simpl; [done|].
  destruct (f x) eqn:E; simpl; [rewrite E; by f_equal | done].
Qed.

(** X20: a cancel keeps, in their order, exactly the queued requests that
    have a [step_id] input different from the cancelled id; a queued request
    without a [step_id] input is removed by any cancel. The load is not
    changed, and cancelling the same id again changes nothing. *)
Theorem cancel_filters_queue :
  forall (st : PoolActorState) (step_id : string),
    let st' := fst (Pool.on_cancel st step_id) in
    (forall e, In e (pending_requests_ st') <->
               In e (pending_requests_ st)
               /\ exists s, inputs (snd e) !! "step_id" = Some s /\ s <> step_id)
    /\ sublist (pending_requests_ st') (pending_requests_ st)
    /\ current_load_ st' = current_load_ st
    /\ fst (Pool.on_cancel st' step_id) = st'.
Proof.
  intros st step_id. unfold Pool.on_cancel. simpl.
  split; [| split; [| split]].
  - intros e. rewrite filter_In. split.
    + intros [Hin Hkeep]. split; [done|].
      destruct (inputs (snd e) !! "step_id") as [s|]; [|done].
      exists s. split; [done|]. intros ->. by rewrite String.eqb_refl in Hkeep.
    + intros [Hin (s & Hs & Hne)]. split; [done|].
      rewrite Hs. by apply negb_true_iff, String.eqb_neq.
  - apply filter_sublist.
  - reflexivity.
  - unfold Pool.with_pending. simpl. f_equal. apply filter_twice.
Qed.

(** ** Sandbox: every rejection *)

Lemma find_is_0_spec s p :
  Str.find_is_0 s p = true <-> exists post, s = p +:+ post.
Proof.
  rewrite <- starts_with_spec. unfold Str.find_is_0.
  destruct s as [|c s]; simpl.
  - by destruct (Str.starts_with p "").
  - destruct (Str.starts_with p (String c s)); [done|].
    by destruct (Str.find s p).
Qed.

(** X21: [validate_sandbox_request] rejects a request exactly in three
    cases: its type starts with "exec." or "system."; it is an http.request
    whose [url] input starts with "file://" or "ftp://" (compared as
    written, so "FILE://" passes); it is a sql.query whose upper-cased query
    contains a forbidden keyword. Every other request is accepted. *)
Theorem sandbox_rejections :
  forall req : StepRequest,
    has_value (Sandbox.validate_sandbox_request req) = false <->
    ((exists post, req_type req = "exec." +:+ post)
     \/ (exists post, req_type req = "system." +:+ post))
    \/ (req_type req = "http.request"
        /\ exists url, inputs req !! "url" = Some url
                       /\ ((exists post, url = "file://" +:+ post)
                           \/ (exists post, url = "ftp://" +:+ post)))
    \/ (req_type req = "sql.query"
        /\ exists query keyword pre post,
             inputs req !! "query" = Some query
             /\ In keyword Sandbox.forbidden_keywords
             /\ Str.upper query = pre +:+ keyword +:+ post).
Proof.
  intros req. unfold Sandbox.validate_sandbox_request.
  repeat setoid_rewrite <- find_is_0_spec.
  assert (H1 : Str.find_is_0 (req_type req) "exec."
               || Str.find_is_0 (req_type req) "system." = true <->
               Str.find_is_0 (req_type req) "exec." = true
               \/ Str.find_is_0 (req_type req) "system." = true)
    by apply orb_true_iff.
  assert (H2 : String.eqb (req_type req) "http.request"
               && match inputs req !! "url" with
                  | Some url => Str.find_is_0 url "file://" || Str.find_is_0 url "ftp://"
                  | None => false
                  end = true <->
               req_type req = "http.request"
               /\ exists url, inputs req !! "url" = Some url
                              /\ (Str.find_is_0 url "file://" = true
                                  \/ Str.find_is_0 url "ftp://" = true)).
  { rewrite andb_true_iff, String.eqb_eq.
    destruct (inputs req !! "url") as [url|].
    - rewrite orb_true_iff. split.
      + intros [? ?]. split; [done|]. by exists url.
      + intros [? (u & Hu & ?)]. by injection Hu as <-.
    - split; [intros [_ ?]; discriminate | intros [_ (u & Hu & _)]; discriminate]. }
  assert (H3 : String.eqb (req_type req) "sql.query"
               && match inputs req !! "query" with
                  | Some query =>
                      existsb (fun keyword => Str.contains (Str.upper query) keyword)
                              Sandbox.forbidden_keywords
                  | None => false
                  end = true <->
               req_type req = "sql.query"
               /\ exists query keyword pre post,
                    inputs req !! "query" = Some query
                    /\ In keyword Sandbox.forbidden_keywords
                    /\ Str.upper query = pre +:+ keyword +:+ post).
  { rewrite andb_true_iff, String.eqb_eq.
    destruct (inputs req !! "query") as [query|].
    - rewrite existsb_exists. split.
      + intros [? (kw & Hin & Hc)]. split; [done|].
        apply contains_spec in Hc as (pre & post & Hc). by exists query, kw, pre, post.
      + intros [? (q & kw & pre & post & Hq & Hin & Hc)]. injection Hq as <-.
        split; [done|]. exists kw. split; [done|]. apply contains_spec. eauto.
    - split; [intros [_ ?]; discriminate|].
      intros [_ (q & kw & pre & post & Hq & _)]. discriminate. }
  rewrite <- H1, <- H2, <- H3.
  repeat match goal with
         | |- context [if ?c then _ else _] => destruct c
         end; simpl; intuition discriminate.
Qed.

(** ** FS handlers: every result *)

Lemma not_allowed_write_code path :
  Str.contains ("File write error: " +:+ "Path not allowed: " +:+ path) "permission"
  || Str.contains ("File write error: " +:+ "Path not allowed: " +:+ path) "Permission"
  = Str.contains path "permission" || Str.contains path "Permission".
Proof.
  unfold Str.contains. cbv [String.append].
  cbn [Str.find Str.starts_with Ascii.eqb Bool.eqb].
  by destruct (Str.find path "permission"), (Str.find path "Permission").
Qed.

Lemma not_allowed_read_code path :
  Str.contains ("File read error: " +:+ "Path not allowed: " +:+ path) "not found"
  || Str.contains ("File read error: " +:+ "Path not allowed: " +:+ path) "Not found"
  = Str.contains path "not found" || Str.contains path "Not found".
Proof.
  unfold Str.contains. cbv [String.append].
  cbn [Str.find Str.starts_with Ascii.eqb Bool.eqb].
  by destruct (Str.find path "not found"), (Str.find path "Not found").
Qed.

(** X22: for a path outside the allow-list both FS handlers return an error
    whose message names the path, without touching the file system, and
    whose error code is read off that message: fs.blob_put answers
    [permission_denied] when the path contains "permission" or "Permission"
    and [execution_failed] otherwise; fs.blob_get answers
    [resource_unavailable] when the path contains "not found" or "Not found"
    and [execution_failed] otherwise. *)
Theorem fs_rejected_path_error_code :
  (forall (env : gmap string string) (w : FsWorld) (req : StepRequest)
          (ctx : BlockContext) (path content : string),
      inputs req !! "path" = Some path ->
      inputs req !! "content" = Some content ->
      is_path_allowed path = false ->
      FsBlockExecutor.execute_impl env w req ctx
      = Value (error_result
                 (if Str.contains path "permission" || Str.contains path "Permission"
                  then permission_denied else execution_failed)
                 ("File write error: " +:+ "Path not allowed: " +:+ path)
                 (metadata_from_context ctx) (elapsed_ms w)))
  /\ (forall (env : gmap string string) (w : FsWorld) (req : StepRequest)
             (ctx : BlockContext) (path : string),
        inputs req !! "path" = Some path ->
        is_path_allowed path = false ->
        FsGetBlockExecutor.execute_impl env w req ctx
        = Value (error_result
                   (if Str.contains path "not found" || Str.contains path "Not found"
                    then resource_unavailable else execution_failed)
                   ("File read error: " +:+ "Path not allowed: " +:+ path)
                   (metadata_from_context ctx) (elapsed_ms w))).
Proof.
  split.
  - intros env w req ctx path content Hpath Hcontent Hno.
    unfold FsBlockExecutor.execute_impl.
    rewrite validate_required_inputs_present
      by (repeat constructor; rewrite ?Hpath, ?Hcontent; eauto).
    rewrite (inputs_at_Some _ _ _ Hpath), Hno. simpl.
    by rewrite not_allowed_write_code.
  - intros env w req ctx path Hpath Hno.
    unfold FsGetBlockExecutor.execute_impl.
    rewrite validate_required_inputs_present
      by (repeat constructor; rewrite ?Hpath; eauto).
    rewrite (inputs_at_Some _ _ _ Hpath), Hno. simpl.
    by rewrite not_allowed_read_code.
Qed.

Lemma fs_rejected_path_error_code_witness :
  error_code <$> (match FsBlockExecutor.execute_impl env_baseline slow_world
                          (make_request "fs.blob_put"
                             [("path", "/etc/permission.txt"); ("content", "x")])
                          ctx_tenant with
                  | Value r => Some r
                  | Error _ _ => None
                  end) = Some permission_denied
  /\ error_code <$> (match FsGetBlockExecutor.execute_impl env_baseline slow_world
                             (make_request "fs.blob_get" [("path", "/etc/passwd")])
                             ctx_tenant with
                     | Value r => Some r
                     | Error _ _ => None
                     end) = Some execution_failed.
Proof.
  destruct fs_rejected_path_error_code as [Hput Hget]. split.
  - rewrite (Hput env_baseline slow_world _ ctx_tenant "/etc/permission.txt" "x");
      vm_compute; reflexivity.
  - rewrite (Hget env_baseline slow_world _ ctx_tenant "/etc/passwd");
      vm_compute; reflexivity.
Defined.

(** X23: the FS handlers always return a StepResult, never a raw error, with
    the latency read from the clock; it is a success with error code [none],
    or an error without outputs whose code is [missing_required_field],
    [execution_failed] or [permission_denied] for fs.blob_put and
    [missing_required_field], [execution_failed] or [resource_unavailable]
    for fs.blob_get. Neither handler ever returns a timeout or a
    cancellation. *)
Theorem fs_handler_results :
  forall (env : gmap string string) (w : FsWorld) (req : StepRequest)
         (ctx : BlockContext),
    (exists r : StepResult,
        FsBlockExecutor.execute_impl env w req ctx = Value r
        /\ latency_ms r = elapsed_ms w
        /\ ((status r = ok /\ error_code r = none)
            \/ (status r = error /\ outputs r = ∅
                /\ In (error_code r)
                      [missing_required_field; execution_failed; permission_denied])))
    /\ (exists r : StepResult,
          FsGetBlockExecutor.execute_impl env w req ctx = Value r
          /\ latency_ms r = elapsed_ms w
          /\ ((status r = ok /\ error_code r = none)
              \/ (status r = error /\ outputs r = ∅
                  /\ In (error_code r)
                        [missing_required_field; execution_failed;
                         resource_unavailable]))).
Proof.
  intros env w req ctx. split.
  - unfold FsBlockExecutor.execute_impl.
    destruct (negb _).
    { eexists. split; [reflexivity|]. split; [done|]. right. simpl. tauto. }
    eexists. split; [reflexivity|].
    unfold try_catch, FsBlockExecutor.write_task, FsBlockExecutor.write_file, throw_if.
    repeat (case_match; simpl in *; simplify_eq);
      (split; [done|]); first [ by left | right; simpl; tauto ].
  - unfold FsGetBlockExecutor.execute_impl.
    destruct (negb _).
    { eexists. split; [reflexivity|]. split; [done|]. right. simpl. tauto. }
    eexists. split; [reflexivity|].
    unfold try_catch, FsGetBlockExecutor.read_task, FsGetBlockExecutor.read_file,
      throw_if.
    repeat (case_match; simpl in *; simplify_eq);
      (split; [done|]); first [ by left | right; simpl; tauto ].
Qed.

(** X24: fs.blob_get on an allowed path that does not exist returns an error
    with code [resource_unavailable] and the message "File read error: File
    not found: <path>", with the complete-timeout flag off and, with it on,
    when the worker answers within the read timeout of 5000 ms. *)
Theorem fs_get_missing_file :
  forall (env : gmap string string) (w : FsWorld) (req : StepRequest)
         (ctx : BlockContext) (path : string),
    inputs req !! "path" = Some path ->
    is_path_allowed path = true ->
    fs_exception w = None ->
    fs_exists w path = false ->
    FeatureFlags.is_complete_timeout_enabled env = false \/ io_duration w <= 5000 ->
    FsGetBlockExecutor.execute_impl env w req ctx
    = Value (error_result resource_unavailable
               ("File read error: " +:+ "File not found: " +:+ path)
               (metadata_from_context ctx) (elapsed_ms w)).
Proof.
  intros env w req ctx path Hpath Hallowed Hexn Hmissing Hmode.
  unfold FsGetBlockExecutor.execute_impl.
  rewrite validate_required_inputs_present
    by (repeat constructor; rewrite ?Hpath; eauto).
  rewrite (inputs_at_Some _ _ _ Hpath), Hallowed.
  assert (Hread : FsGetBlockExecutor.read_file w path
                  = Throw ("File not found: " +:+ path)).
  { unfold FsGetBlockExecutor.read_file. by rewrite Hexn, Hmissing. }
  destruct (FeatureFlags.is_complete_timeout_enabled env) eqn:Hflag.
  - destruct Hmode as [? | Hfast]; [done|].
    rewrite (fs_timeout_read env Hflag). simpl.
    unfold wait_for. destruct (Z.leb_spec (io_duration w) 5000); [|lia].
    unfold FsGetBlockExecutor.read_task. rewrite Hread. reflexivity.
  - simpl. rewrite Hread. reflexivity.
Qed.

Lemma fs_get_missing_file_witness :
  FsGetBlockExecutor.execute_impl env_baseline slow_world blob_get_request ctx_tenant
  = Value (error_result resource_unavailable
             "File read error: File not found: /tmp/beamline/in.bin"
             (metadata_from_context ctx_tenant) 60000).
Proof.
  apply (fs_get_missing_file env_baseline slow_world blob_get_request ctx_tenant
           "/tmp/beamline/in.bin");
    first [ vm_compute; reflexivity | left; vm_compute; reflexivity ].
Defined.

(** X25: fs.blob_put on an allowed path, when the file may be written
    (it does not exist, or [overwrite] is exactly "true"), no file-system
    call fails and, with the complete-timeout flag on, the worker finishes
    within 10000 ms, returns a success whose outputs are the path, the
    number of bytes of the content as [size], and the creation time. *)
Theorem fs_put_success :
  forall (env : gmap string string) (w : FsWorld) (req : StepRequest)
         (ctx : BlockContext) (path content : string),
    inputs req !! "path" = Some path ->
    inputs req !! "content" = Some content ->
    is_path_allowed path = true ->
    get_input_or_default req "overwrite" "" = "true" \/ fs_exists w path = false ->
    fs_exception w = None ->
    fs_open_ok w = true ->
    FeatureFlags.is_complete_timeout_enabled env = false \/ io_duration w <= 10000 ->
    FsBlockExecutor.execute_impl env w req ctx
    = Value (success (metadata_from_context ctx)
               (<["created" := Str.to_string (system_clock_now w)]>
                  (<["size" := Str.to_string (Z.of_nat (String.length content))]>
                     (<["path" := path]> ∅)))
               (elapsed_ms w)).
Proof.
  intros env w req ctx path content Hpath Hcontent Hallowed Hfree Hexn Hopen Hmode.
  unfold FsBlockExecutor.execute_impl.
  rewrite validate_required_inputs_present
    by (repeat constructor; rewrite ?Hpath, ?Hcontent; eauto).
  rewrite (inputs_at_Some _ _ _ Hpath), (inputs_at_Some _ _ _ Hcontent), Hallowed.
  assert (Hguard : negb (String.eqb (get_input_or_default req "overwrite" "") "true")
                   && fs_exists w path = false).
  { destruct Hfree as [-> | ->]; [reflexivity | apply andb_false_r]. }
  rewrite Hguard.
  assert (Hwrite : FsBlockExecutor.write_file w path = Ret tt).
  { unfold FsBlockExecutor.write_file. by rewrite Hexn, Hopen. }
  destruct (FeatureFlags.is_complete_timeout_enabled env) eqn:Hflag.
  - destruct Hmode as [? | Hfast]; [done|].
    rewrite (fs_timeout_write env Hflag). simpl.
    unfold wait_for. destruct (Z.leb_spec (io_duration w) 10000); [|lia].
    unfold FsBlockExecutor.write_task. by rewrite Hwrite.
  - simpl. by rewrite Hwrite.
Qed.

Lemma fs_put_success_witness :
  status <$> (match FsBlockExecutor.execute_impl env_baseline slow_world
                      blob_put_request ctx_tenant with
              | Value r => Some r
              | Error _ _ => None
              end) = Some ok
  /\ (match FsBlockExecutor.execute_impl env_baseline slow_world
              blob_put_request ctx_tenant with
      | Value r => outputs r !! "size"
      | Error _ _ => None
      end) = Some "7".
Proof.
  rewrite (fs_put_success env_baseline slow_world blob_put_request ctx_tenant
             "/tmp/beamline/out.bin" "payload");
    first [ split; vm_compute; reflexivity
          | vm_compute; reflexivity
          | right; vm_compute; reflexivity
          | left; vm_compute; reflexivity ].
Defined.

(** ** Wire record: values *)

Lemma wire_lookup_base r a q p j k v :
  (<["cost" := "0.0"]>
     (<["latency_ms" := Str.to_string (latency_ms r)]>
        (<["job" := "{" +:+ Str.dquote +:+ "type" +:+ Str.dquote +:+ ":"
                    +:+ Str.dquote +:+ j +:+ Str.dquote +:+ "}"]>
           (<["provider_id" := p]>
              (<["status" := ResultConverter.status_to_string (status r)]>
                 (<["request_id" := q]>
                    (<["assignment_id" := a]>
                       (<["version" := "1"]> (∅ : gmap string string))))))))) !! k
  = Some v ->
  k <> "trace_id" -> k <> "run_id" -> k <> "tenant_id" ->
  k <> "error_code" -> k <> "error_message" ->
  ResultConverter.to_exec_result_json r a q p j !! k = Some v.
Proof.
  intros Hbase H1 H2 H3 H4 H5. unfold ResultConverter.to_exec_result_json. cbv zeta.
  destruct (decide (status r = error));
    repeat first [ rewrite set_if_other; [| congruence]
                 | rewrite lookup_insert_ne; [| congruence] ];
    exact Hbase.
Qed.

(** X26: in the wire record the [status] value reads back as the status of
    the result, [latency_ms] is the decimal latency, the three identifiers
    are echoed, each non-empty correlation ID (trace, run, tenant) and, for
    an error, the error code string are stored under their keys; the record
    is the same whatever the outputs, [retries_used], [flow_id] and
    [step_id] of the result, which are not transmitted. *)
Theorem wire_record_values :
  forall (r : StepResult) (a q p j : string),
    let m := ResultConverter.to_exec_result_json r a q p j in
    ResultConverter.string_to_status <$> (m !! "status") = Some (status r)
    /\ m !! "latency_ms" = Some (Str.to_string (latency_ms r))
    /\ m !! "assignment_id" = Some a
    /\ m !! "request_id" = Some q
    /\ m !! "provider_id" = Some p
    /\ (trace_id (metadata r) <> "" -> m !! "trace_id" = Some (trace_id (metadata r)))
    /\ (run_id (metadata r) <> "" -> m !! "run_id" = Some (run_id (metadata r)))
    /\ (tenant_id (metadata r) <> "" -> m !! "tenant_id" = Some (tenant_id (metadata r)))
    /\ (status r = error ->
        m !! "error_code"
        = Some (ResultConverter.error_code_to_string (error_code r)))
    /\ (forall outs n flow step,
          ResultConverter.to_exec_result_json (with_untransmitted outs n flow step r)
            a q p j = m).
Proof.
  intros r a q p j m. subst m.
  split.
  { erewrite wire_lookup_base;
      [| repeat (rewrite lookup_insert_ne; [| discriminate]);
         by rewrite lookup_insert_eq | done..].
    simpl. by destruct (status r). }
  split; [apply wire_lookup_base;
            [repeat (rewrite lookup_insert_ne; [| discriminate]);
             by rewrite lookup_insert_eq | done..]|].
  split; [apply wire_lookup_base;
            [repeat (rewrite lookup_insert_ne; [| discriminate]);
             by rewrite lookup_insert_eq | done..]|].
  split; [apply wire_lookup_base;
            [repeat (rewrite lookup_insert_ne; [| discriminate]);
             by rewrite lookup_insert_eq | done..]|].
  split; [apply wire_lookup_base;
            [repeat (rewrite lookup_insert_ne; [| discriminate]);
             by rewrite lookup_insert_eq | done..]|].
  unfold ResultConverter.to_exec_result_json. cbv zeta.
  split; [| split; [| split; [| split]]].
  - intros H%empty_false.
    destruct (decide (status r = error));
      repeat first [ rewrite set_if_other; [| discriminate]
                   | rewrite lookup_insert_ne; [| discriminate] ];
      unfold ResultConverter.set_if; rewrite H; simpl; by rewrite lookup_insert_eq.
  - intros H%empty_false.
    destruct (decide (status r = error));
      repeat first [ rewrite set_if_other; [| discriminate]
                   | rewrite lookup_insert_ne; [| discriminate] ];
      unfold ResultConverter.set_if at 1; rewrite H; simpl; by rewrite lookup_insert_eq.
  - intros H%empty_false.
    destruct (decide (status r = error));
      repeat first [ rewrite set_if_other; [| discriminate]
                   | rewrite lookup_insert_ne; [| discriminate] ];
      unfold ResultConverter.set_if at 1; rewrite H; simpl; by rewrite lookup_insert_eq.
  - intros Herr. destruct (decide (status r = error)); [|done].
    rewrite set_if_other by discriminate. by rewrite lookup_insert_eq.
  - reflexivity.
Qed.

Lemma wire_record_values_witness :
  ResultConverter.to_exec_result_json
    (error_result network_error "down" (metadata_from_context ctx_tenant) 200)
    "a1" "q1" "p1" "http.request" !! "error_code" = Some "NETWORK_ERROR"
  /\ ResultConverter.to_exec_result_json
       (error_result network_error "down" (metadata_from_context ctx_tenant) 200)
       "a1" "q1" "p1" "http.request" !! "tenant_id" = Some "tenant_123".
Proof.
  destruct (wire_record_values
              (error_result network_error "down" (metadata_from_context ctx_tenant) 200)
              "a1" "q1" "p1" "http.request")
    as (_ & _ & _ & _ & _ & _ & _ & Htenant & Hcode & _).
  split; [apply Hcode; reflexivity | apply Htenant; discriminate].
Defined.

(** ** Choosing the pool *)



(** ** Endpoint ports *)

Lemma find_colon_app addr rest :
  Str.find addr ":" = None ->
  Str.find (addr +:+ ":" +:+ rest) ":" = Some (String.length addr).
Proof.
  induction addr as [|c addr IH]; intros H; [reflexivity|].
  change (String c addr +:+ ":" +:+ rest) with (String c (addr +:+ ":" +:+ rest)).
  cbn [Str.find Str.starts_with] in *. destruct (Ascii.eqb ":" c); [discriminate|].
  destruct (Str.find addr ":"); [discriminate|]. by rewrite IH.
Qed.

Lemma take_chars_app addr rest :
  take_chars (String.length addr) (addr +:+ rest) = addr.
Proof.
  induction addr as [|c addr IH]; [by destruct rest|].
  change (String c addr +:+ rest) with (String c (addr +:+ rest)).
  simpl. by rewrite IH.
Qed.

Lemma drop_chars_app addr rest :
  drop_chars (S (String.length addr)) (addr +:+ ":" +:+ rest) = rest.
Proof.
  induction addr as [|c addr IH]; [reflexivity|].
  change (String c addr +:+ ":" +:+ rest) with (String c (addr +:+ ":" +:+ rest)).
  exact IH.
Qed.

(** X28: an endpoint option without a colon gives the defaults (0.0.0.0,
    health port 9091, metrics port 9092). For "addr:port" with no colon in
    [addr], the address is [addr] and the health and metrics ports are the
    parsed port plus 1 and plus 2, reduced modulo 65536 (so port 65535 puts
    the health endpoint on port 0); if the text after the first colon is not
    a number, [std::stoi] raises and start-up ends with a fatal error. *)
Theorem endpoint_ports :
  (forall s, Str.find s ":" = None -> Main.endpoints s = Ret ("0.0.0.0", 9091, 9092))
  /\ (forall addr port_str p,
        Str.find addr ":" = None ->
        stoi port_str = Some p ->
        -1 <= p <= 2147483645 ->
        Main.endpoints (addr +:+ ":" +:+ port_str)
        = Ret (addr, (p + 1) mod 65536, (p + 2) mod 65536))
  /\ (forall addr port_str,
        Str.find addr ":" = None ->
        stoi port_str = None ->
        Main.endpoints (addr +:+ ":" +:+ port_str) = Throw "stoi").
Proof.
  split; [| split].
  - intros s H. unfold Main.endpoints. by rewrite H.
  - intros addr port_str p Haddr Hport Hp. unfold Main.endpoints.
    rewrite (find_colon_app addr port_str Haddr), take_chars_app, drop_chars_app, Hport.
    by rewrite !wrap32_small by lia.
  - intros addr port_str Haddr Hport. unfold Main.endpoints.
    by rewrite (find_colon_app addr port_str Haddr), drop_chars_app, Hport.
Qed.

Lemma endpoint_ports_witness :
  Main.endpoints "0.0.0.0:9090" = Ret ("0.0.0.0", 9091, 9092)
  /\ Main.endpoints "127.0.0.1:65535" = Ret ("127.0.0.1", 0, 1)
  /\ Main.endpoints "localhost" = Ret ("0.0.0.0", 9091, 9092)
  /\ Main.endpoints "::1" = Throw "stoi".
Proof.
  destruct endpoint_ports as (Hdefault & Hport & Hthrow).
  split; [| split; [| split]].
  - apply (Hport "0.0.0.0" "9090" 9090); first [reflexivity | lia].
  - apply (Hport "127.0.0.1" "65535" 65535); first [reflexivity | lia].
  - apply Hdefault. reflexivity.
  - apply (Hthrow "" ":1"); reflexivity.
Defined.

(** ** Human approval handler *)

(** X29: with both required inputs present, the human.approval handler lets
    an exception escape when [timeout_seconds] is not a number; otherwise it
    returns a result with the metadata of the context: in sandbox mode a
    success with decision "approved", outside sandbox a timeout result
    exactly when the measured latency exceeds [timeout_seconds * 1000] and
    else a success whose [status] output is "pending". It never returns an
    error in these cases. *)
Theorem human_approval_results :
  forall (w : HumanWorld) (req : StepRequest) (ctx : BlockContext)
         (approval_type description : string),
    inputs req !! "approval_type" = Some approval_type ->
    inputs req !! "description" = Some description ->
    (stoll (get_input_or_default req "timeout_seconds" "3600") = None ->
     HumanBlockExecutor.execute_impl w req ctx = Throw "stoll")
    /\ (forall t,
          stoll (get_input_or_default req "timeout_seconds" "3600") = Some t ->
          exists r : StepResult,
            HumanBlockExecutor.execute_impl w req ctx = Ret (Value r)
            /\ metadata r = metadata_from_context ctx
            /\ (ctx_sandbox ctx = true ->
                status r = ok /\ outputs r !! "decision" = Some "approved")
            /\ (ctx_sandbox ctx = false ->
                (status r = timeout <->
                 wrap64 (t * 1000) < human_clock_end w - human_clock_start w)
                /\ (status r = timeout \/
                    (status r = ok /\ outputs r !! "status" = Some "pending")))).
Proof.
  intros w req ctx approval_type description Htype Hdesc.
  unfold HumanBlockExecutor.execute_impl.
  rewrite validate_required_inputs_present
    by (repeat constructor; rewrite ?Htype, ?Hdesc; eauto).
  simpl negb. cbv iota. split.
  - by intros ->.
  - intros t ->. destruct (ctx_sandbox ctx).
    + eexists. split; [reflexivity|]. split; [done|]. split; [|done].
      intros _. split; [done|]. simpl.
      by rewrite !lookup_insert_ne, lookup_insert_eq by discriminate.
    + destruct (Z.ltb_spec (wrap64 (t * 1000))
                  (human_clock_end w - human_clock_start w)).
      * eexists. split; [reflexivity|]. split; [done|]. split; [done|].
        intros _. split; [done | by left].
      * eexists. split; [reflexivity|]. split; [done|]. split; [done|].
        intros _. split.
        -- simpl. split; [discriminate | lia].
        -- right. split; [done|]. simpl.
           by rewrite !lookup_insert_ne, lookup_insert_eq by discriminate.
Qed.

Lemma human_approval_results_witness :
  HumanBlockExecutor.execute_impl approval_world approval_request ctx_tenant
  = Ret (Value (timeout_result (metadata_from_context ctx_tenant) 100))
  /\ HumanBlockExecutor.execute_impl approval_world
       (make_request "human.approval"
          [("approval_type", "deploy"); ("description", "ship it");
           ("timeout_seconds", "soon")]) ctx_tenant
     = Throw "stoll".
Proof.
  split.
  - destruct (human_approval_results approval_world approval_request ctx_tenant
                "deploy" "ship it" eq_refl eq_refl) as [_ H].
    destruct (H 0 eq_refl) as (r & Hr & _). vm_compute. reflexivity.
  - apply (human_approval_results approval_world _ ctx_tenant "deploy" "ship it");
      reflexivity.
Defined.

(** ** Log record *)

Lemma lookup_unless_empty (b : bool) (k k' : string) (v : json) (m : gmap string json) :
  k <> k' -> (if b then m else <[k := v]> m) !! k' = m !! k'.
Proof. intros H. destruct b; [done|]. by rewrite lookup_insert_ne. Qed.

(** X30: the log record always carries [level], [component = "worker"] and
    [message], a non-empty tenant id at top level, and a [context] object.
    In that object every entry of the caller's context appears under its key,
    with the value replaced by "[REDACTED]" when the key is sensitive and
    unchanged otherwise; [worker_id] is present unless the caller's context
    has a key of that name; no sensitive key keeps its value. Top-level
    fields such as [message] are not filtered. *)
Theorem log_record_context :
  forall (worker_id_ timestamp level message tenant run flow step trace : string)
         (context : gmap string string),
    let e := Observability.format_json_log worker_id_ timestamp level message
               tenant run flow step trace context in
    e !! "level" = Some (JString level)
    /\ e !! "component" = Some (JString "worker")
    /\ e !! "message" = Some (JString message)
    /\ (tenant <> "" -> e !! "tenant_id" = Some (JString tenant))
    /\ exists fields,
         e !! "context" = Some (JObject fields)
         /\ (forall k v, context !! k = Some v ->
               In (k, if is_pii_field k then JString "[REDACTED]" else JString v) fields)
         /\ (context !! "worker_id" = None ->
             In ("worker_id", JString worker_id_) fields)
         /\ (forall k j, In (k, j) fields -> is_pii_field k = true ->
               j = JString "[REDACTED]").
Proof.
  intros wid ts level msg tenant run flow step trace context e. subst e.
  unfold Observability.format_json_log. cbv zeta.
  unfold Observability.context_object. rewrite filter_object.
  set (M := JString <$> (context ∪ {["worker_id" := wid]})).
  assert (Hne : map_to_list M <> []).
  { intros Hnil. apply map_to_list_empty_iff in Hnil.
    assert (Hw : is_Some (M !! "worker_id")).
    { unfold M. rewrite lookup_fmap.
      destruct (context !! "worker_id") as [v|] eqn:E.
      - rewrite (lookup_union_Some_l _ _ _ _ E). eauto.
      - rewrite lookup_union_r by done. rewrite lookup_singleton_eq. eauto. }
    rewrite Hnil, lookup_empty in Hw. by destruct Hw. }
  assert (Hempty : Observability.json_empty
                     (JObject (List.map redact_field (map_to_list M))) = false).
  { destruct (map_to_list M); [done | reflexivity]. }
  rewrite Hempty.
  split; [| split; [| split; [| split]]].
  - rewrite lookup_insert_ne by discriminate.
    rewrite !lookup_unless_empty by discriminate.
    by rewrite !lookup_insert_ne, lookup_insert_eq by discriminate.
  - rewrite lookup_insert_ne by discriminate.
    rewrite !lookup_unless_empty by discriminate.
    by rewrite !lookup_insert_ne, lookup_insert_eq by discriminate.
  - rewrite lookup_insert_ne by discriminate.
    rewrite !lookup_unless_empty by discriminate.
    by rewrite lookup_insert_eq.
  - intros Ht%empty_false.
    rewrite lookup_insert_ne by discriminate.
    rewrite !lookup_unless_empty by discriminate.
    rewrite Ht. by rewrite lookup_insert_eq.
  - exists (List.map redact_field (map_to_list M)).
    split; [by rewrite lookup_insert_eq|]. split; [| split].
    + intros k v Hk.
      assert (Hin : In (k, JString v) (map_to_list M)).
      { apply list_elem_of_In, elem_of_map_to_list. unfold M.
        by rewrite lookup_fmap, (lookup_union_Some_l _ _ _ _ Hk). }
      apply (in_map redact_field) in Hin. unfold redact_field in Hin at 1.
      exact Hin.
    + intros Hnone.
      assert (Hin : In ("worker_id", JString wid) (map_to_list M)).
      { apply list_elem_of_In, elem_of_map_to_list. unfold M.
        rewrite lookup_fmap, lookup_union_r by done.
        by rewrite lookup_singleton_eq. }
      apply (in_map redact_field) in Hin. exact Hin.
    + intros k j Hin Hpii. apply in_map_iff in Hin as [[k0 v0] [Heq _]].
      unfold redact_field in Heq. simpl in Heq. injection Heq as Hk Hj. subst k0.
      by rewrite Hpii in Hj.
Qed.

Lemma log_record_context_witness :
  exists fields,
    Observability.format_json_log "worker_1" "2025-01-27T00:00:00.000000Z" "INFO"
      "Worker starting" "tenant_123" "" "" "" ""
      (<["api_key" := "k-xyz"]> (<["user_id" := "u1"]> ∅)) !! "context"
    = Some (JObject fields)
    /\ In ("api_key", JString "[REDACTED]") fields
    /\ In ("user_id", JString "u1") fields
    /\ In ("worker_id", JString "worker_1") fields.
Proof.
  destruct (log_record_context "worker_1" "2025-01-27T00:00:00.000000Z" "INFO"
              "Worker starting" "tenant_123" "" "" "" ""
              (<["api_key" := "k-xyz"]> (<["user_id" := "u1"]> ∅)))
    as (_ & _ & _ & _ & fields & Hctx & Hentries & Hworker & _).
  exists fields. split; [exact Hctx|]. split; [| split].
  - apply (Hentries "api_key" "k-xyz"). reflexivity.
  - apply (Hentries "user_id" "u1"). reflexivity.
  - apply Hworker. reflexivity.
Defined.

(** The health endpoint answers 200 to every request text that contains
    "GET /_health", wherever it stands, and 404 to every other one. *)
Lemma health_routing (request body : string) :
  Observability.health_reply request body <> Observability.not_found_reply <->
  exists pre post, request = pre +:+ "GET /_health" +:+ post.
Proof.
  rewrite <- contains_spec. unfold Observability.health_reply.
  destruct (Str.contains request "GET /_health") eqn:E1; simpl.
  - split; [done |].
    intros _ Heq. apply (f_equal (String.get 9)) in Heq.
    vm_compute in Heq. discriminate.
  - destruct (Str.contains request "GET /_health HTTP") eqn:E2.
    + apply contains_spec in E2 as (pre & post & ->).
      assert (Str.contains (pre +:+ "GET /_health HTTP" +:+ post) "GET /_health" = true)
        by (apply contains_spec; exists pre, (" HTTP" +:+ post); reflexivity).
      congruence.
    + split; [congruence | discriminate].
Qed.
